(** * piece_table.py: the array-of-strings and piece-table line editors

    A shallow embedding of [src/piece_table.py] and the properties of its
    two [FileEditor] implementations, [ArrayOfStrings] and [PieceTable].

    Python values are modelled as follows.
    - [int] is [Z]; [len] returns a [Z].
    - [str] is a list of characters; ["\n"] is the character of code 10.
    - [list] is [list], with Python's index normalisation (negative
      indexes count from the end) written out for [insert], [pop], item
      assignment and slicing.
    - [dict[int, int]] is [gmap Z Z]; a missing key raises [KeyError].
    - A file is its stored text, or a content that cannot be decoded;
      reading in text mode turns every ["\r\n"] and every other ["\r"]
      into ["\n"], and writing stores the text as it is (the line
      separator of the system is ["\n"]).
    - A method is a computation over the object's state that ends either by
      returning or by raising; the state it leaves behind is kept in both
      cases, so that a mutation performed before a [raise] stays visible. *)

From Stdlib Require Import ZArith Ascii String.
From stdpp Require Import gmap strings list fin_maps.

Open Scope Z_scope.

(** ** Python runtime *)

Module Py.

Abbreviation str := (list ascii).

Definition newline : ascii := "010"%char.

Definition carriage_return : ascii := "013"%char.

Definition len {A} (l : list A) : Z := Z.of_nat (length l).

(** [s.endswith("\n")] *)
Definition endswith_newline (s : str) : bool :=
  match last s with
  | Some c => bool_decide (c = newline)
  | None => false
  end.

(** Bound of a slice: a negative bound counts from the end, and every
    bound is clipped to [0, n]. *)
Definition slice_bound (n i : Z) : Z :=
  if bool_decide (i < 0) then Z.max 0 (i + n) else Z.min i n.

(** [l[lo:hi]] *)
Definition slice {A} (l : list A) (lo hi : Z) : list A :=
  let a := slice_bound (len l) lo in
  let b := slice_bound (len l) hi in
  take (Z.to_nat (b - a)) (drop (Z.to_nat a) l).

(** Position used by [l[i]], [l[i] = x] and [l.pop(i)]: [None] stands for
    an index out of range. *)
Definition item_index (n i : Z) : option nat :=
  let j := if bool_decide (i < 0) then i + n else i in
  if bool_decide (0 <= j < n) then Some (Z.to_nat j) else None.

(** Where [l.insert(i, x)] puts [x]: the position is clipped. *)
Definition insert_at {A} (i : Z) (x : A) (l : list A) : list A :=
  let k := Z.to_nat (slice_bound (len l) i) in
  take k l ++ x :: drop k l.

(** [range(lo, hi)] *)
Definition range (lo hi : Z) : list Z := seqZ lo (hi - lo).

(** [f.readlines()]: the lines of a text, each with its terminator; a
    last line without terminator is kept as it is. *)
Fixpoint readlines_from (cur : str) (s : str) : list str :=
  match s with
  | [] => match cur with [] => [] | _ => [cur] end
  | c :: rest =>
      if bool_decide (c = newline)
      then (cur ++ [c]) :: readlines_from [] rest
      else readlines_from (cur ++ [c]) rest
  end.

Definition readlines (s : str) : list str := readlines_from [] s.

Inductive exn :=
| ValueError
| KeyError
| IndexError
| NotImplementedError
| AttributeError
| FileNotFoundError
| UnicodeDecodeError
| OverflowError.

Inductive outcome (A : Type) :=
| Return (a : A)
| Raise (e : exn).
Arguments Return {A} a.
Arguments Raise {A} e.

Definition raised {A} (o : outcome A) : Prop :=
  match o with Return _ => False | Raise _ => True end.

(** A computation over a mutable state [S]. *)
Definition M (S A : Type) : Type := S -> S * outcome A.

Definition ret {S A} (a : A) : M S A := fun s => (s, Return a).

Definition raise {S A} (e : exn) : M S A := fun s => (s, Raise e).

Definition bind {S A B} (m : M S A) (k : A -> M S B) : M S B :=
  fun s =>
    match m s with
    | (s', Return a) => k a s'
    | (s', Raise e) => (s', Raise e)
    end.

Definition get {S} : M S S := fun s => (s, Return s).

Definition put {S} (s : S) : M S unit := fun _ => (s, Return tt).

(** [d[k]] on a dictionary *)
Definition getitem {S} (d : gmap Z Z) (k : Z) : M S Z :=
  match d !! k with
  | Some v => ret v
  | None => raise KeyError
  end.

(** [for x in xs: acc = body(x, acc)] *)
Fixpoint for_each {S A B} (xs : list A) (body : A -> B -> M S B) (acc : B)
  : M S B :=
  match xs with
  | [] => ret acc
  | x :: rest => bind (body x acc) (for_each rest body)
  end.

(** The text of a literal. *)
Definition lit (s : string) : str := list_ascii_of_string s.

(** The range of a C [ssize_t], to which [list.insert] and [list.pop]
    convert their index, on a 64-bit build. *)
Definition ssize_t_max : Z := 2 ^ 63 - 1.

Definition fits_ssize_t (i : Z) : Prop := - ssize_t_max - 1 <= i <= ssize_t_max.

(** The conversion of the index [i] fails, for a list of [n] items: [i] is
    outside the range of a [ssize_t]. A list never holds more than
    [ssize_t_max] items, so that an index from [-n] to [n] always fits; the
    second half of the test says so for the lists of the model, whose
    length is not bounded, and is implied by the first half for every list
    that Python can hold. *)
Definition index_overflows (n i : Z) : bool :=
  bool_decide (~ (- ssize_t_max - 1 <= i <= ssize_t_max) /\ ~ (- n <= i <= n)).

(** [l.insert(i, x)] *)
Definition list_insert {S A} (i : Z) (x : A) (l : list A) : M S (list A) :=
  if index_overflows (len l) i then raise OverflowError
  else ret (insert_at i x l).

(** [l.pop(i)], for the list it leaves *)
Definition list_pop {S A} (i : Z) (l : list A) : M S (list A) :=
  if index_overflows (len l) i then raise OverflowError
  else match item_index (len l) i with
       | None => raise IndexError
       | Some k => ret (delete k l)
       end.

(** [l[i] = x] *)
Definition list_setitem {S A} (i : Z) (x : A) (l : list A) : M S (list A) :=
  match item_index (len l) i with
  | None => raise IndexError
  | Some k => ret (<[k := x]> l)
  end.

(** What reading in text mode makes of the stored text: ["\r\n"] and a
    ["\r"] on its own both become ["\n"]. *)
Fixpoint universal_newlines (s : str) : str :=
  match s with
  | [] => []
  | c :: rest =>
      if bool_decide (c = carriage_return) then
        newline ::
          match rest with
          | d :: rest' =>
              if bool_decide (d = newline) then universal_newlines rest'
              else universal_newlines rest
          | [] => []
          end
      else c :: universal_newlines rest
  end.

(** The content of a file: text, or bytes that do not decode. The other
    failures of [open] (a directory, missing permissions) are left out;
    like the two modelled here they raise before the object is touched. *)
Inductive file :=
| Text (s : str)
| Undecodable.

(** The file system: the content stored under each file name. *)
Abbreviation files := (gmap string file).

Definition file_text (f : option file) : str :=
  match f with
  | Some (Text s) => s
  | _ => []
  end.

(** [open(file_name).read()] *)
Definition open_read {S} (fs : files) (file_name : string) : M S str :=
  match fs !! file_name with
  | None => raise FileNotFoundError
  | Some Undecodable => raise UnicodeDecodeError
  | Some (Text s) => ret (universal_newlines s)
  end.

End Py.

Import Py.

Notation "'do' x <- m ; k" := (bind m (fun x => k))
  (at level 10, x name, m at level 100, k at level 200, only parsing).

(** ** class ArrayOfStrings *)

Module ArrayOfStrings.

Record t := mk { data : list str }.

(** [__init__]: [data] defaults to the empty list. *)
Definition __init__ (d : option (list str)) : t :=
  match d with
  | None => mk []
  | Some l => mk l
  end.

Definition read_file (fs : files) (file_name : string) : M t unit :=
  do content <- open_read fs file_name ;
  put (mk (readlines content)).

Definition write_file (file_name : string) (self : t) : M files unit :=
  fun fs => (<[file_name := Text (concat (data self))]> fs, Return tt).

Definition edit_line (line_number : Z) (new_line : str) : M t unit :=
  let new_line :=
    if endswith_newline new_line then new_line else new_line ++ [newline] in
  do self <- get ;
  do data' <- list_setitem line_number new_line (data self) ;
  put (mk data').

Definition add_line (line_number : Z) (new_line : str) : M t unit :=
  let new_line :=
    if endswith_newline new_line then new_line else new_line ++ [newline] in
  do self <- get ;
  do data' <- list_insert line_number new_line (data self) ;
  put (mk data').

Definition remove_line (line_number : Z) : M t unit :=
  do self <- get ;
  do data' <- list_pop line_number (data self) ;
  put (mk data').

Definition __str__ (self : t) : str := concat (data self).

End ArrayOfStrings.

(** ** class Source, class Piece *)

(** [Source] is a [StrEnum]: its members are the strings below, and
    [piece.source == Source.original] is string equality. *)
Module Source.
Definition original : string := "original".
Definition add : string := "add".
End Source.

Module Piece.
Record t := mk { source : string; start : Z; length : Z }.
End Piece.

(** ** class PieceTable *)

Module PieceTable.

Record t := mk {
  original : str;
  line_indexes : gmap Z Z;
  lines : Z;
  add : str;
  pieces : list Piece.t
}.

Definition set_add (v : str) (self : t) : t :=
  mk (original self) (line_indexes self) (lines self) v (pieces self).

Definition set_pieces (v : list Piece.t) (self : t) : t :=
  mk (original self) (line_indexes self) (lines self) (add self) v.

Definition set_lines (v : Z) (self : t) : t :=
  mk (original self) (line_indexes self) v (add self) (pieces self).

(** The loop of [make_line_indexes], from position [index] on. *)
Fixpoint make_line_indexes_loop (data : str) (index : Z)
    (line_indexes : gmap Z Z) (line_number : Z) : gmap Z Z * Z :=
  match data with
  | [] => (line_indexes, line_number)
  | char :: rest =>
      if bool_decide (char = newline)
      then make_line_indexes_loop rest (index + 1)
             (<[line_number + 1 := index]> line_indexes) (line_number + 1)
      else make_line_indexes_loop rest (index + 1) line_indexes line_number
  end.

Definition make_line_indexes (data : str) : gmap Z Z * Z :=
  make_line_indexes_loop data 0 {[0 := 0]} 0.

(** [_initialize] assigns every attribute and reads none. *)
Definition _initialize (original : str) : t :=
  let '(line_indexes, lines) := make_line_indexes original in
  mk original line_indexes lines []
     (match original with
      | [] => []
      | _ => [Piece.mk Source.original 0 (len original)]
      end).

Definition __init__ (original : str) : t := _initialize original.

Definition read_file (fs : files) (file_name : string) : M t unit :=
  do original <- open_read fs file_name ;
  put (_initialize original).

(** The buffer a piece refers to; an unknown source raises. *)
Definition buffer_of {S} (self : t) (piece : Piece.t) : M S str :=
  if bool_decide (Piece.source piece = Source.original) then ret (original self)
  else if bool_decide (Piece.source piece = Source.add) then ret (add self)
  else raise ValueError.

Definition piece_text (buffer : str) (piece : Piece.t) : str :=
  slice buffer (Piece.start piece) (Piece.start piece + Piece.length piece).

(** [write_file]: the file is truncated when opened, then receives the
    text of each piece in turn. *)
Definition write_file (file_name : string) (self : t) : M files unit :=
  do _ <- (fun fs => (<[file_name := Text []]> fs, Return tt)) ;
  for_each (pieces self)
    (fun piece (_ : unit) =>
       do buffer <- buffer_of self piece ;
       fun fs =>
         (<[file_name :=
              Text (file_text (fs !! file_name) ++ piece_text buffer piece)]> fs,
          Return tt))
    tt.

(** [edit_line] raises at its first statement; what follows the [raise]
    in the source is never run. *)
Definition edit_line (line_number : Z) (new_line : str) : M t unit :=
  raise NotImplementedError.

(** The loop of [add_line] over [self.pieces]. *)
Fixpoint add_line_loop (insert_index : Z) (new_piece : Piece.t)
    (ps : list Piece.t) (new_pieces : list Piece.t) (current_index : Z)
  : list Piece.t :=
  match ps with
  | [] => new_pieces
  | piece :: rest =>
      if bool_decide (current_index + Piece.length piece < insert_index) then
        add_line_loop insert_index new_piece rest
          (new_pieces ++ [piece]) (current_index + Piece.length piece)
      else if bool_decide (current_index > insert_index) then
        add_line_loop insert_index new_piece rest
          (new_pieces ++ [piece]) (current_index + Piece.length piece)
      else if bool_decide (current_index = insert_index) then
        add_line_loop insert_index new_piece rest
          (new_pieces ++ [new_piece; piece]) current_index
      else
        let splice_distance := insert_index - current_index in
        add_line_loop insert_index new_piece rest
          (new_pieces ++
             [Piece.mk (Piece.source piece) (Piece.start piece) splice_distance;
              new_piece;
              Piece.mk (Piece.source piece)
                (Piece.start piece + splice_distance)
                (Piece.length piece - splice_distance)])
          current_index
  end.

(** The body of the loop that builds [new_line_indexes]. *)
Definition new_line_indexes_body (self : t) (line_number insert_index : Z)
    (new_piece : Piece.t) (i : Z) (new_line_indexes : gmap Z Z)
  : M t (gmap Z Z) :=
  if bool_decide (i < line_number) then
    do v <- getitem (line_indexes self) i ;
    ret (<[i := v]> new_line_indexes)
  else if bool_decide (i = line_number) then
    ret (<[i := insert_index]> new_line_indexes)
  else
    do v <- getitem (line_indexes self) (i - 1) ;
    ret (<[i := v + Piece.length new_piece]> new_line_indexes).

Definition add_line (line_number : Z) (new_line : str) : M t unit :=
  let new_line :=
    if endswith_newline new_line then new_line else new_line ++ [newline] in
  do self <- get ;
  if bool_decide (line_number > lines self) then raise ValueError else
  let new_piece := Piece.mk Source.add (len (add self)) (len new_line) in
  do _ <- put (set_add (add self ++ new_line) self) ;
  do self <- get ;
  do v <- getitem (line_indexes self) line_number ;
  let insert_index := v + 1 in
  do _ <- put (set_pieces
            (add_line_loop insert_index new_piece (pieces self) [] 0) self) ;
  do self <- get ;
  do _ <- put (set_lines (lines self + 1) self) ;
  do self <- get ;
  do _ <- for_each (range 0 (lines self))
       (new_line_indexes_body self line_number insert_index new_piece) ∅ ;
  ret tt.

(** The loop of [__str__]. *)
Fixpoint __str__loop (self : t) (ps : list Piece.t) (output : str)
  : outcome str :=
  match ps with
  | [] => Return output
  | piece :: rest =>
      if bool_decide (Piece.source piece = Source.original) then
        __str__loop self rest (output ++ piece_text (original self) piece)
      else if bool_decide (Piece.source piece = Source.add) then
        __str__loop self rest (output ++ piece_text (add self) piece)
      else Raise ValueError
  end.

Definition __str__ (self : t) : outcome str :=
  __str__loop self (pieces self) [].

End PieceTable.

(** ** The FileEditor protocol *)

(** A call of one of the five methods that [FileEditor] declares. A call
    acts on the file system and on the receiving object. *)
Module FileEditor.

Inductive call :=
| read_file (file_name : string)
| write_file (file_name : string)
| edit_line (line_number : Z) (new_line : str)
| add_line (line_number : Z) (new_line : str)
| remove_line (line_number : Z).

Definition on_object {T A} (m : M T A) : M (files * T) A :=
  fun w => let '(self', o) := m (snd w) in ((fst w, self'), o).

Definition on_files {T A} (m : M files A) : M (files * T) A :=
  fun w => let '(fs', o) := m (fst w) in ((fs', snd w), o).

Definition ArrayOfStrings_invoke (c : call)
  : M (files * ArrayOfStrings.t) unit :=
  match c with
  | read_file file_name =>
      fun w => on_object (ArrayOfStrings.read_file (fst w) file_name) w
  | write_file file_name =>
      fun w => on_files (ArrayOfStrings.write_file file_name (snd w)) w
  | edit_line line_number new_line =>
      on_object (ArrayOfStrings.edit_line line_number new_line)
  | add_line line_number new_line =>
      on_object (ArrayOfStrings.add_line line_number new_line)
  | remove_line line_number =>
      on_object (ArrayOfStrings.remove_line line_number)
  end.

(** [PieceTable] defines no [remove_line]: looking the attribute up
    raises [AttributeError]. *)
Definition PieceTable_invoke (c : call) : M (files * PieceTable.t) unit :=
  match c with
  | read_file file_name =>
      fun w => on_object (PieceTable.read_file (fst w) file_name) w
  | write_file file_name =>
      fun w => on_files (PieceTable.write_file file_name (snd w)) w
  | edit_line line_number new_line =>
      on_object (PieceTable.edit_line line_number new_line)
  | add_line line_number new_line =>
      on_object (PieceTable.add_line line_number new_line)
  | remove_line line_number => raise AttributeError
  end.

(** The piece tables a program can hold: built by the constructor, then
    subjected to any calls, whatever the files contain at each call and
    whether the call returns or raises. *)
Inductive reachable : PieceTable.t -> Prop :=
| reachable_init original : reachable (PieceTable.__init__ original)
| reachable_call c fs self :
    reachable self -> reachable (snd (fst (PieceTable_invoke c (fs, self)))).

End FileEditor.

(** ** Auxiliary definitions for the properties *)

(** [new_line] once [add_line] and [edit_line] have made it end with a
    line terminator. *)
Definition normalized (new_line : str) : str :=
  if endswith_newline new_line then new_line else new_line ++ [newline].

Module PieceTableFacts.
Import PieceTable.

(** The state [add_line] leaves when the line number passes the check
    and is a key of the line index, with value [v]. *)
Definition added (self : t) (v : Z) (new_line : str) : t :=
  let new_line := normalized new_line in
  mk (original self) (line_indexes self) (lines self + 1)
     (add self ++ new_line)
     (add_line_loop (v + 1)
        (Piece.mk Source.add (len (add self)) (len new_line))
        (pieces self) [] 0).

(** How the loop that builds [new_line_indexes] ends in that state. *)
Definition new_line_indexes_outcome (self : t) (line_number v : Z)
    (new_line : str) : outcome unit :=
  let self' := added self v new_line in
  match
    snd (for_each (range 0 (lines self'))
           (new_line_indexes_body self' line_number (v + 1)
              (Piece.mk Source.add (len (add self))
                 (len (normalized new_line))))
           ∅ self')
  with
  | Return _ => Return tt
  | Raise e => Raise e
  end.

(** A piece is well formed when it names one of the two buffers and
    lies within it. *)
Definition piece_ok (orig added_text : str) (p : Piece.t) : Prop :=
  0 <= Piece.start p /\ 0 <= Piece.length p /\
  ((Piece.source p = Source.original /\
    Piece.start p + Piece.length p <= len orig) \/
   (Piece.source p = Source.add /\
    Piece.start p + Piece.length p <= len added_text)).

Definition pieces_ok (self : t) : Prop :=
  Forall (piece_ok (original self) (add self)) (pieces self).

Definition total_length (ps : list Piece.t) : Z :=
  foldr (fun p n => Piece.length p + n) 0 ps.

(** The number of line terminators of a text. *)
Definition newlines (s : str) : Z := len (filter (fun c => c = newline) s).

(** Position [i] of [text] holds the [k]-th line terminator. *)
Definition kth_terminator (text : str) (k i : Z) : Prop :=
  0 <= i < len text /\
  text !! Z.to_nat i = Some newline /\
  newlines (take (Z.to_nat i) text) = k - 1.

(** What [make_line_indexes] builds for [text]: entry 0 is 0, and entry
    [k], for [k] from 1 to the number [n] of terminators, is the position
    of the [k]-th terminator itself. *)
Record line_index_inv (text : str) (li : gmap Z Z) (n : Z) : Prop := {
  inv_count : n = newlines text;
  inv_first : li !! 0 = Some 0;
  inv_keys : forall k, is_Some (li !! k) <-> 0 <= k <= n;
  inv_size : size li = S (Z.to_nat n);
  inv_entry : forall k, 1 <= k <= n ->
                exists i, li !! k = Some i /\ kth_terminator text k i;
  inv_increasing : forall j k a b,
      1 <= j < k -> li !! j = Some a -> li !! k = Some b -> a < b
}.

(** The line index as the specification describes it: entry 0 is 0,
    entry [k] is the offset that follows the [k]-th terminator, the
    entries increase strictly and there are as many as lines. *)
Definition spec_line_index (text : str) (li : gmap Z Z) (n : Z) : Prop :=
  li !! 0 = Some 0 /\
  (forall k i, 1 <= k -> li !! k = Some i -> kth_terminator text k (i - 1)) /\
  (forall j k a b, j < k -> li !! j = Some a -> li !! k = Some b -> a < b) /\
  Z.of_nat (size li) = n.

End PieceTableFacts.

(** ** Sample documents *)

Definition text_a : str := lit "a" ++ [newline].
Definition text_b : str := lit "b" ++ [newline].
Definition text_c : str := lit "c" ++ [newline].
Definition text_x : str := lit "x" ++ [newline].
Definition text_y : str := lit "y" ++ [newline].
Definition text_ab : str := text_a ++ text_b.
Definition three_lines : str := text_a ++ text_b ++ text_c.

(** The piece table after loading ["a\nb\nc\n"] and calling
    [add_line(1, "x")]. *)
Definition after_add_line : PieceTable.t :=
  snd (fst (FileEditor.PieceTable_invoke
              (FileEditor.add_line 1 (lit "x"))
              (∅, PieceTable.__init__ three_lines))).


(** ** Facts about the runtime *)

Section runtime_facts.

Context {A : Type}.
Implicit Types (l : list A) (i n : Z).

Lemma len_nonneg l : 0 <= len l.
Proof. unfold len. lia. Qed.

Lemma len_app l1 l2 : len (l1 ++ l2) = len l1 + len l2.
Proof. unfold len. rewrite length_app. lia. Qed.

Lemma slice_bound_in_range n i : 0 <= i <= n -> slice_bound n i = i.
Proof. intros H. unfold slice_bound. case_bool_decide; lia. Qed.

Lemma slice_whole l : slice l 0 (0 + len l) = l.
Proof.
  pose proof (len_nonneg l) as Hl.
  unfold slice. rewrite !slice_bound_in_range by lia.
  rewrite Z.add_0_l, Z.sub_0_r. unfold len. rewrite Nat2Z.id.
  change (Z.to_nat 0) with 0%nat. rewrite drop_0. apply firstn_all.
Qed.

Lemma length_slice l i n :
  0 <= i -> 0 <= n -> i + n <= len l -> len (slice l i (i + n)) = n.
Proof.
  intros Hi Hn Hl. unfold slice.
  rewrite !slice_bound_in_range by lia.
  unfold len in *. rewrite length_take, length_drop. lia.
Qed.

End runtime_facts.

Lemma index_overflows_in_range n i :
  - n <= i <= n -> index_overflows n i = false.
Proof. intros Hi. apply bool_decide_eq_false_2. tauto. Qed.

Lemma index_overflows_fits n i :
  fits_ssize_t i -> index_overflows n i = false.
Proof.
  intros Hi. apply bool_decide_eq_false_2. unfold fits_ssize_t in Hi. tauto.
Qed.

Lemma index_overflows_outside n i :
  n <= ssize_t_max -> ~ fits_ssize_t i -> index_overflows n i = true.
Proof.
  intros Hn Hi. apply bool_decide_eq_true_2. unfold fits_ssize_t in Hi.
  split; [done|]. lia.
Qed.

Lemma piece_table_read_file_eq (fs : files) file_name self :
  PieceTable.read_file fs file_name self
  = match fs !! file_name with
    | Some (Text raw) =>
        (PieceTable._initialize (universal_newlines raw), Return tt)
    | Some Undecodable => (self, Raise UnicodeDecodeError)
    | None => (self, Raise FileNotFoundError)
    end.
Proof.
  unfold PieceTable.read_file, bind, open_read.
  by destruct (fs !! file_name) as [[raw|]|].
Qed.

Lemma array_read_file_eq (fs : files) file_name self :
  ArrayOfStrings.read_file fs file_name self
  = match fs !! file_name with
    | Some (Text raw) =>
        (ArrayOfStrings.mk (readlines (universal_newlines raw)), Return tt)
    | Some Undecodable => (self, Raise UnicodeDecodeError)
    | None => (self, Raise FileNotFoundError)
    end.
Proof.
  unfold ArrayOfStrings.read_file, bind, open_read.
  by destruct (fs !! file_name) as [[raw|]|].
Qed.

Lemma array_add_line_eq n text self :
  ArrayOfStrings.add_line n text self
  = if index_overflows (len (ArrayOfStrings.data self)) n
    then (self, Raise OverflowError)
    else (ArrayOfStrings.mk
            (insert_at n (normalized text) (ArrayOfStrings.data self)),
          Return tt).
Proof.
  unfold ArrayOfStrings.add_line, bind, get, list_insert. simpl.
  fold (normalized text).
  by destruct (index_overflows (len (ArrayOfStrings.data self)) n).
Qed.

Lemma array_remove_line_eq n self :
  ArrayOfStrings.remove_line n self
  = if index_overflows (len (ArrayOfStrings.data self)) n
    then (self, Raise OverflowError)
    else match item_index (len (ArrayOfStrings.data self)) n with
         | None => (self, Raise IndexError)
         | Some k =>
             (ArrayOfStrings.mk (delete k (ArrayOfStrings.data self)),
              Return tt)
         end.
Proof.
  unfold ArrayOfStrings.remove_line, bind, get, list_pop. simpl.
  destruct (index_overflows (len (ArrayOfStrings.data self)) n); [done|].
  by destruct (item_index (len (ArrayOfStrings.data self)) n).
Qed.

Lemma array_edit_line_eq n text self :
  ArrayOfStrings.edit_line n text self
  = match item_index (len (ArrayOfStrings.data self)) n with
    | None => (self, Raise IndexError)
    | Some k =>
        (ArrayOfStrings.mk (<[k := normalized text]> (ArrayOfStrings.data self)),
         Return tt)
    end.
Proof.
  unfold ArrayOfStrings.edit_line, bind, get, list_setitem. simpl.
  fold (normalized text).
  by destruct (item_index (len (ArrayOfStrings.data self)) n).
Qed.

(** ** What [add_line] does to the state *)

Import PieceTableFacts.

Section add_line_facts.
Import PieceTable.

Variables (self : t) (line_number insert_index : Z) (new_piece : Piece.t).

Lemma new_line_indexes_body_cases i acc (s : t) :
  (exists m,
      new_line_indexes_body self line_number insert_index new_piece i acc s
      = (s, Return m)) \/
  new_line_indexes_body self line_number insert_index new_piece i acc s
  = (s, Raise KeyError).
Proof.
  unfold new_line_indexes_body.
  repeat case_bool_decide; unfold bind, getitem, ret, raise;
    try destruct (line_indexes self !! _); eauto.
Qed.

Lemma new_line_indexes_cases xs acc (s : t) :
  (exists m,
      for_each xs
        (new_line_indexes_body self line_number insert_index new_piece)
        acc s = (s, Return m)) \/
  for_each xs
    (new_line_indexes_body self line_number insert_index new_piece)
    acc s = (s, Raise KeyError).
Proof.
  revert acc. induction xs as [|i xs IH]; intros acc; simpl.
  - left. by eexists.
  - unfold bind.
    destruct (new_line_indexes_body_cases i acc s) as [[m ->] | ->];
      [apply IH | by right].
Qed.

(** The loop returns when every key it looks up is in the line index. *)
Lemma new_line_indexes_returns xs acc (s : t) :
  (forall i, i ∈ xs ->
             (i < line_number -> is_Some (line_indexes self !! i)) /\
             (line_number < i -> is_Some (line_indexes self !! (i - 1)))) ->
  exists m,
    for_each xs
      (new_line_indexes_body self line_number insert_index new_piece)
      acc s = (s, Return m).
Proof.
  revert acc. induction xs as [|i xs IH]; intros acc Hkeys; simpl.
  - by eexists.
  - destruct (Hkeys i ltac:(left)) as [Hlt Hgt].
    assert (forall j, j ∈ xs ->
              (j < line_number -> is_Some (line_indexes self !! j)) /\
              (line_number < j -> is_Some (line_indexes self !! (j - 1))))
      as Hrest by (intros j Hj; apply Hkeys; by right).
    unfold bind, new_line_indexes_body.
    repeat case_bool_decide.
    + destruct (Hlt ltac:(lia)) as [w Hw].
      unfold bind, getitem. rewrite Hw. simpl. by apply IH.
    + simpl. by apply IH.
    + destruct (Hgt ltac:(lia)) as [w Hw].
      unfold bind, getitem. rewrite Hw. simpl. by apply IH.
Qed.

End add_line_facts.

Lemma add_line_eq line_number new_line self :
  PieceTable.add_line line_number new_line self =
    if bool_decide (line_number > PieceTable.lines self)
    then (self, Raise ValueError)
    else match PieceTable.line_indexes self !! line_number with
         | None =>
             (PieceTable.set_add
                (PieceTable.add self ++ normalized new_line) self,
              Raise KeyError)
         | Some v =>
             (added self v new_line,
              new_line_indexes_outcome self line_number v new_line)
         end.
Proof.
  unfold PieceTable.add_line. fold (normalized new_line).
  unfold bind at 1. unfold get at 1.
  case_bool_decide as Hn; [done|].
  unfold bind at 1. simpl. unfold bind at 1. simpl.
  unfold bind at 1, getitem at 1. simpl.
  destruct (PieceTable.line_indexes self !! line_number) as [v|] eqn:Hv;
    simpl; [|done].
  unfold bind at 1. simpl. unfold bind at 1. simpl.
  unfold bind at 1. simpl. unfold bind at 1. simpl.
  unfold bind at 1.
  unfold new_line_indexes_outcome, added.
  unfold PieceTable.set_lines, PieceTable.set_pieces, PieceTable.set_add.
  simpl.
  match goal with
  | |- context [for_each ?xs
                  (PieceTable.new_line_indexes_body ?sf ?ln ?ii ?np) ?a ?s] =>
      destruct (new_line_indexes_cases sf ln ii np xs a s) as [[m Hm] | Hm]
  end; simpl in Hm; rewrite Hm; done.
Qed.

Lemma new_line_indexes_outcome_cases self line_number v new_line :
  new_line_indexes_outcome self line_number v new_line = Return tt \/
  new_line_indexes_outcome self line_number v new_line = Raise KeyError.
Proof.
  unfold new_line_indexes_outcome. cbv zeta.
  match goal with
  | |- context [for_each ?xs
                  (PieceTable.new_line_indexes_body ?sf ?ln ?ii ?np) ?a ?s] =>
      destruct (new_line_indexes_cases sf ln ii np xs a s) as [[m ->] | ->]
  end; auto.
Qed.

(** ** Well-formed pieces *)

Section pieces_facts.
Import PieceTable.

Lemma piece_ok_grow orig a extra p :
  piece_ok orig a p -> piece_ok orig (a ++ extra) p.
Proof.
  unfold piece_ok. rewrite len_app. pose proof (len_nonneg extra).
  intros (? & ? & [[? ?]|[? ?]]); repeat split; auto; right; split; auto; lia.
Qed.

Lemma add_line_loop_ok orig a insert_index new_piece ps acc current_index :
  piece_ok orig a new_piece ->
  Forall (piece_ok orig a) ps ->
  Forall (piece_ok orig a) acc ->
  Forall (piece_ok orig a)
    (add_line_loop insert_index new_piece ps acc current_index).
Proof.
  intros Hnew Hps. revert acc current_index.
  induction Hps as [|p ps Hp Hps IH]; intros acc cur Hacc; simpl; [done|].
  repeat case_bool_decide; apply IH; apply Forall_app; split; auto.
  destruct Hp as (Hs & Hl & Hsrc).
  constructor; [|constructor; [done|constructor; [|constructor]]].
  - unfold piece_ok; simpl. split; [lia|]. split; [lia|].
    destruct Hsrc as [[? ?]|[? ?]]; [left|right]; split; auto; lia.
  - unfold piece_ok; simpl. split; [lia|]. split; [lia|].
    destruct Hsrc as [[? ?]|[? ?]]; [left|right]; split; auto; lia.
Qed.

Lemma initialize_ok text : pieces_ok (_initialize text).
Proof.
  unfold pieces_ok, _initialize.
  destruct (make_line_indexes text) as [li n]. simpl.
  destruct text as [|c text]; constructor; [|constructor].
  unfold piece_ok. simpl. pose proof (len_nonneg (c :: text)).
  repeat split; try lia. left. split; [done|lia].
Qed.

Lemma add_line_ok line_number new_line self :
  pieces_ok self -> pieces_ok (fst (add_line line_number new_line self)).
Proof.
  intros Hok. rewrite add_line_eq. case_bool_decide; [done|].
  destruct (line_indexes self !! line_number) as [v|]; simpl.
  2:{ unfold pieces_ok in *. simpl. eapply Forall_impl; [exact Hok|].
      intros p. apply piece_ok_grow. }
  unfold pieces_ok in *. simpl. apply add_line_loop_ok.
  - unfold piece_ok. simpl. rewrite len_app.
    pose proof (len_nonneg (add self)).
    pose proof (len_nonneg (normalized new_line)).
    repeat split; try lia. right. split; [done|lia].
  - eapply Forall_impl; [exact Hok|]. intros p. apply piece_ok_grow.
  - constructor.
Qed.

Lemma str_loop_ok self ps output :
  Forall (piece_ok (original self) (add self)) ps ->
  exists out, __str__loop self ps output = Return out /\
              len out = len output + total_length ps.
Proof.
  intros Hps. revert output.
  induction Hps as [|p ps Hp Hps IH]; intros output; simpl.
  - exists output. split; [done|lia].
  - destruct Hp as (Hs & Hl & [[Hsrc Hb]|[Hsrc Hb]]).
    + rewrite bool_decide_eq_true_2 by done.
      destruct (IH (output ++ piece_text (original self) p)) as (out & -> & Hlen).
      exists out. split; [done|]. rewrite Hlen, len_app.
      unfold piece_text. rewrite length_slice by lia. lia.
    + rewrite bool_decide_eq_false_2 by (rewrite Hsrc; done).
      rewrite bool_decide_eq_true_2 by done.
      destruct (IH (output ++ piece_text (add self) p)) as (out & -> & Hlen).
      exists out. split; [done|]. rewrite Hlen, len_app.
      unfold piece_text. rewrite length_slice by lia. lia.
Qed.

End pieces_facts.

(** ** The line index built by [make_line_indexes] *)

Lemma newlines_nonneg s : 0 <= newlines s.
Proof. apply len_nonneg. Qed.

Lemma newlines_snoc s c :
  newlines (s ++ [c]) = newlines s + (if bool_decide (c = newline) then 1 else 0).
Proof.
  unfold newlines. rewrite filter_app, len_app. f_equal.
  rewrite filter_cons, filter_nil.
  case_bool_decide; destruct (decide (c = newline)); done.
Qed.

Lemma kth_terminator_grow text extra k i :
  kth_terminator text k i -> kth_terminator (text ++ extra) k i.
Proof.
  intros (Hi & Hc & Hn). unfold len in Hi. split; [|split].
  - rewrite len_app. pose proof (len_nonneg extra). unfold len in *. lia.
  - rewrite lookup_app_l by lia. done.
  - rewrite take_app_le by lia. done.
Qed.

Lemma kth_terminator_last text k :
  k - 1 = newlines text -> kth_terminator (text ++ [newline]) k (len text).
Proof.
  intros Hk. unfold kth_terminator, len. rewrite Nat2Z.id. split; [|split].
  - rewrite length_app. simpl. lia.
  - rewrite lookup_app_r by lia. by rewrite Nat.sub_diag.
  - rewrite take_app_le by lia. rewrite firstn_all. done.
Qed.

Lemma line_index_inv_init : line_index_inv [] {[0 := 0]} 0.
Proof.
  split.
  - done.
  - apply lookup_singleton_eq.
  - intros k. rewrite lookup_singleton_is_Some. lia.
  - by rewrite map_size_singleton.
  - intros k ?. lia.
  - intros j k a b Hjk _ Hb. apply lookup_singleton_Some in Hb. lia.
Qed.

Lemma line_index_inv_other text li n c :
  c <> newline -> line_index_inv text li n -> line_index_inv (text ++ [c]) li n.
Proof.
  intros Hc [H1 H2 H3 H4 H5 H6]. split; auto.
  - rewrite newlines_snoc, bool_decide_eq_false_2 by done. lia.
  - intros k Hk. destruct (H5 k Hk) as (i & Hi & Hm).
    exists i. split; [done|]. by apply kth_terminator_grow.
Qed.

Lemma line_index_inv_newline text li n :
  line_index_inv text li n ->
  line_index_inv (text ++ [newline]) (<[n + 1 := len text]> li) (n + 1).
Proof.
  intros [H1 H2 H3 H4 H5 H6].
  pose proof (newlines_nonneg text) as Hn.
  assert (li !! (n + 1) = None) as Hfresh.
  { apply eq_None_not_Some. rewrite H3. lia. }
  split.
  - rewrite newlines_snoc, bool_decide_eq_true_2 by done. lia.
  - rewrite lookup_insert_ne by lia. done.
  - intros k. rewrite lookup_insert_is_Some, H3. lia.
  - rewrite map_size_insert_None by done. rewrite H4.
    f_equal. lia.
  - intros k Hk. destruct (decide (k = n + 1)) as [->|Hne].
    + exists (len text). rewrite lookup_insert_eq. split; [done|].
      apply kth_terminator_last. lia.
    + rewrite lookup_insert_ne by lia.
      destruct (H5 k ltac:(lia)) as (i & Hi & Hm).
      exists i. split; [done|]. by apply kth_terminator_grow.
  - intros j k a b Hjk Ha Hb.
    assert (is_Some (<[n + 1 := len text]> li !! k)) as Hk by eauto.
    rewrite lookup_insert_is_Some, H3 in Hk.
    rewrite lookup_insert_ne in Ha by lia.
    destruct (decide (k = n + 1)) as [->|Hne].
    + rewrite lookup_insert_eq in Hb. injection Hb as <-.
      destruct (H5 j ltac:(lia)) as (i & Hi & (Hr & _)).
      rewrite Ha in Hi. injection Hi as ->. lia.
    + rewrite lookup_insert_ne in Hb by lia. eauto.
Qed.

Lemma make_line_indexes_loop_inv data text li n :
  line_index_inv text li n ->
  line_index_inv (text ++ data)
    (fst (PieceTable.make_line_indexes_loop data (len text) li n))
    (snd (PieceTable.make_line_indexes_loop data (len text) li n)).
Proof.
  revert text li n. induction data as [|c data IH]; intros text li n Hinv.
  - simpl. by rewrite app_nil_r.
  - simpl. replace (len text + 1) with (len (text ++ [c]))
      by (rewrite len_app; done).
    rewrite (cons_middle c text data), app_assoc.
    case_bool_decide as Hc.
    + subst c. apply IH. by apply line_index_inv_newline.
    + apply IH. by apply line_index_inv_other.
Qed.

Lemma make_line_indexes_inv text :
  line_index_inv text (fst (PieceTable.make_line_indexes text))
    (snd (PieceTable.make_line_indexes text)).
Proof.
  apply (make_line_indexes_loop_inv text [] {[0 := 0]} 0), line_index_inv_init.
Qed.

Lemma initialize_line_indexes text :
  PieceTable.line_indexes (PieceTable._initialize text)
  = fst (PieceTable.make_line_indexes text) /\
  PieceTable.lines (PieceTable._initialize text)
  = snd (PieceTable.make_line_indexes text).
Proof.
  unfold PieceTable._initialize.
  by destruct (PieceTable.make_line_indexes text).
Qed.

(** *** Facts about [ArrayOfStrings] *)

Lemma item_index_in_range n i :
  0 <= i < n -> item_index n i = Some (Z.to_nat i).
Proof.
  intros Hi. unfold item_index. cbv zeta.
  repeat case_bool_decide; (done || lia).
Qed.

Lemma item_index_out_of_range n i :
  i < - n \/ n <= i -> item_index n i = None.
Proof.
  intros Hi. unfold item_index. cbv zeta.
  repeat case_bool_decide; (done || lia).
Qed.

Lemma insert_at_in_range {A} (l : list A) i x :
  0 <= i <= len l ->
  insert_at i x l = take (Z.to_nat i) l ++ x :: drop (Z.to_nat i) l.
Proof. intros Hi. unfold insert_at. by rewrite slice_bound_in_range. Qed.

Lemma insert_at_past_end {A} (l : list A) i x :
  len l <= i -> insert_at i x l = l ++ [x].
Proof.
  intros Hi. pose proof (len_nonneg l). unfold insert_at, slice_bound.
  rewrite bool_decide_eq_false_2 by lia.
  rewrite Z.min_r by lia. unfold len. rewrite Nat2Z.id.
  by rewrite firstn_all, drop_all.
Qed.

Lemma insert_at_shape {A} (l : list A) i x :
  0 <= i <= len l ->
  len (insert_at i x l) = len l + 1 /\
  insert_at i x l !! Z.to_nat i = Some x /\
  (forall j : nat, (j < Z.to_nat i)%nat -> insert_at i x l !! j = l !! j) /\
  (forall j : nat, (Z.to_nat i <= j)%nat -> insert_at i x l !! S j = l !! j).
Proof.
  intros Hi. rewrite insert_at_in_range by done. unfold len in *.
  set (k := Z.to_nat i). assert (k <= length l)%nat as Hk by lia.
  assert (length (take k l) = k) as Htake by (rewrite length_take; lia).
  repeat split.
  - rewrite length_app, length_cons, length_take, length_drop. lia.
  - rewrite lookup_app_r by lia. by rewrite Htake, Nat.sub_diag.
  - intros j Hj. rewrite lookup_app_l by lia. by rewrite lookup_take_lt.
  - intros j Hj. rewrite lookup_app_r by lia. rewrite Htake.
    replace (S j - k)%nat with (S (j - k)) by lia. simpl.
    rewrite lookup_drop. f_equal. lia.
Qed.

Lemma delete_shape {A} (l : list A) (k : nat) :
  (k < length l)%nat ->
  len (delete k l) = len l - 1 /\
  (forall j : nat, (j < k)%nat -> delete k l !! j = l !! j) /\
  (forall j : nat, (k <= j)%nat -> delete k l !! j = l !! S j).
Proof.
  intros Hk. repeat split.
  - unfold len. rewrite length_delete by (apply lookup_lt_is_Some; lia). lia.
  - intros j Hj. by apply list_lookup_delete_lt.
  - intros j Hj. by apply list_lookup_delete_ge.
Qed.

Lemma insert_after_delete {A} (l : list A) (k : nat) x :
  (k < length l)%nat ->
  take k (delete k l) ++ x :: drop k (delete k l) = <[k := x]> l.
Proof.
  intros Hk. rewrite delete_take_drop, insert_take_drop by done.
  assert (length (take k l) = k) as Htake by (rewrite length_take; lia).
  rewrite take_app_length' by done. by rewrite drop_app_length' by done.
Qed.

(** ** Reachable piece tables *)

Lemma add_line_line_indexes line_number new_line self :
  PieceTable.line_indexes (fst (PieceTable.add_line line_number new_line self))
  = PieceTable.line_indexes self.
Proof.
  rewrite add_line_eq. case_bool_decide; [done|].
  by destruct (PieceTable.line_indexes self !! line_number).
Qed.

Lemma add_line_original line_number new_line self :
  PieceTable.original (fst (PieceTable.add_line line_number new_line self))
  = PieceTable.original self.
Proof.
  rewrite add_line_eq. case_bool_decide; [done|].
  by destruct (PieceTable.line_indexes self !! line_number).
Qed.

(** An invariant of the state that [_initialize] establishes and
    [add_line] preserves holds of every reachable piece table. *)
Lemma reachable_ind_state (P : PieceTable.t -> Prop) :
  (forall text, P (PieceTable._initialize text)) ->
  (forall n s self, P self -> P (fst (PieceTable.add_line n s self))) ->
  forall self, FileEditor.reachable self -> P self.
Proof.
  intros Hinit Hadd self. induction 1 as [text | c fs self Hreach IH].
  - apply Hinit.
  - destruct c as [name | name | n s | n s | n]; simpl.
    + unfold FileEditor.on_object. simpl. rewrite piece_table_read_file_eq.
      destruct (fs !! name) as [[raw|]|]; simpl; [apply Hinit | done | done].
    + unfold FileEditor.on_files. simpl.
      by destruct (PieceTable.write_file name self fs).
    + done.
    + unfold FileEditor.on_object. simpl.
      pose proof (Hadd n s self IH) as Hok.
      by destruct (PieceTable.add_line n s self).
    + done.
Qed.

Lemma reachable_pieces_ok self : FileEditor.reachable self -> pieces_ok self.
Proof.
  apply reachable_ind_state; [apply initialize_ok | apply add_line_ok].
Qed.

(** The line index of a reachable piece table is still the one built from
    the original text. *)
Lemma reachable_line_index self :
  FileEditor.reachable self ->
  line_index_inv (PieceTable.original self) (PieceTable.line_indexes self)
    (newlines (PieceTable.original self)).
Proof.
  revert self. apply reachable_ind_state.
  - intros text. pose proof (make_line_indexes_inv text) as Hinv.
    unfold PieceTable._initialize.
    destruct (PieceTable.make_line_indexes text) as [li n]. simpl in *.
    by rewrite <- (inv_count _ _ _ Hinv).
  - intros n s self. by rewrite add_line_line_indexes, add_line_original.
Qed.

Lemma reachable_lines_nonneg self :
  FileEditor.reachable self -> 0 <= PieceTable.lines self.
Proof.
  revert self. apply reachable_ind_state.
  - intros text. destruct (initialize_line_indexes text) as [_ ->].
    rewrite (inv_count _ _ _ (make_line_indexes_inv text)).
    apply newlines_nonneg.
  - intros n s self Hself. rewrite add_line_eq. case_bool_decide; [done|].
    destruct (PieceTable.line_indexes self !! n); simpl; lia.
Qed.

Lemma write_file_loop_ok file_name self ps (fs : files) :
  Forall (piece_ok (PieceTable.original self) (PieceTable.add self)) ps ->
  snd (for_each ps
         (fun piece (_ : unit) =>
            do buffer <- PieceTable.buffer_of self piece ;
            fun fs =>
              (<[file_name :=
                   Text (file_text (fs !! file_name)
                     ++ PieceTable.piece_text buffer piece)]> fs,
               Return tt))
         tt fs) = Return tt.
Proof.
  intros Hps. revert fs. induction Hps as [|p ps Hp Hps IH]; intros fs; [done|].
  simpl. unfold bind at 1. unfold bind at 1. unfold PieceTable.buffer_of.
  destruct Hp as (_ & _ & [[Hsrc _]|[Hsrc _]]).
  - rewrite bool_decide_eq_true_2 by done. simpl. apply IH.
  - rewrite bool_decide_eq_false_2 by (rewrite Hsrc; done).
    rewrite bool_decide_eq_true_2 by done. simpl. apply IH.
Qed.

(** On a freshly loaded text, [add_line] returns for every line number
    from 0 to the line count. *)
Lemma add_line_fresh_returns text line_number new_line :
  0 <= line_number <= PieceTable.lines (PieceTable._initialize text) ->
  snd (PieceTable.add_line line_number new_line (PieceTable._initialize text))
  = Return tt.
Proof.
  intros Hn. rewrite add_line_eq.
  rewrite bool_decide_eq_false_2 by lia.
  destruct (initialize_line_indexes text) as [Hli Hlines].
  pose proof (make_line_indexes_inv text) as Hinv.
  rewrite <- Hli, <- Hlines in Hinv.
  destruct (proj2 (inv_keys _ _ _ Hinv line_number) Hn) as [v Hv].
  rewrite Hv. simpl. unfold new_line_indexes_outcome. cbv zeta.
  match goal with
  | |- context [for_each ?xs
                  (PieceTable.new_line_indexes_body ?sf ?ln ?ii ?np) ?a ?s] =>
      destruct (new_line_indexes_returns sf ln ii np xs a s) as [m ->]
  end; [|done].
  intros i Hi. unfold range in Hi. apply elem_of_seqZ in Hi. simpl in *.
  split; intros ?; apply (inv_keys _ _ _ Hinv); lia.
Qed.

(** A negative line number passes the check of [add_line] and fails at
    the lookup in the line index. *)
Lemma add_line_negative self line_number new_line :
  FileEditor.reachable self -> line_number < 0 ->
  PieceTable.add_line line_number new_line self
  = (PieceTable.set_add (PieceTable.add self ++ normalized new_line) self,
     Raise KeyError).
Proof.
  intros Hreach Hn. pose proof (reachable_line_index self Hreach) as Hinv.
  pose proof (newlines_nonneg (PieceTable.original self)).
  rewrite add_line_eq.
  assert (PieceTable.line_indexes self !! line_number = None) as ->.
  { apply eq_None_not_Some. rewrite (inv_keys _ _ _ Hinv). lia. }
  pose proof (reachable_lines_nonneg self Hreach).
  by rewrite bool_decide_eq_false_2 by lia.
Qed.

(** ** The claims *)

(** C1. Loading a text into a piece table and serializing it gives the
    text back, whatever the text: empty, one line or several, with or
    without a terminator at the end. *)
Theorem load_serialize_roundtrip (T : str) :
  PieceTable.__str__ (PieceTable.__init__ T) = Return T.
Proof.
  unfold PieceTable.__str__, PieceTable.__init__, PieceTable._initialize.
  destruct (PieceTable.make_line_indexes T) as [li n]. simpl.
  destruct T as [|c T]; [done|]. simpl.
  unfold PieceTable.piece_text. simpl.
  by rewrite (slice_whole (c :: T)).
Qed.

(** [write_file] after loading writes the text back as well. *)
Lemma load_write_file_roundtrip (T : str) (fs : files) file_name :
  PieceTable.write_file file_name (PieceTable.__init__ T) fs
  = (<[file_name := Text T]> fs, Return tt).
Proof.
  unfold PieceTable.write_file, PieceTable.__init__, PieceTable._initialize.
  destruct (PieceTable.make_line_indexes T) as [li n]. simpl.
  destruct T as [|c T]; [done|]. simpl.
  unfold bind, PieceTable.buffer_of, PieceTable.piece_text. simpl.
  rewrite lookup_insert_eq, insert_insert_eq. simpl.
  by rewrite (slice_whole (c :: T)).
Qed.

(** C2. Inserting at line 0 of a piece table goes wrong: [add_line(0, "x")]
    on the two lines ["a\n"; "b\n"] returns, but the text becomes
    ["ax\n\nb\n"], whose lines are ["ax\n"; "\n"; "b\n"], where the claim
    requires ["x\n"; "a\n"; "b\n"]. *)
Theorem add_line_at_line_0_splits_first_line :
  readlines text_ab = [text_a; text_b] /\
  snd (PieceTable.add_line 0 (lit "x") (PieceTable.__init__ text_ab))
  = Return tt /\
  PieceTable.__str__
    (fst (PieceTable.add_line 0 (lit "x") (PieceTable.__init__ text_ab)))
  = Return (lit "a" ++ text_x ++ [newline] ++ text_b) /\
  readlines (lit "a" ++ text_x ++ [newline] ++ text_b)
  = [lit "a" ++ text_x; [newline]; text_b] /\
  [lit "a" ++ text_x; [newline]; text_b] <> [text_x; text_a; text_b].
Proof. repeat split; try (vm_compute; reflexivity). discriminate. Qed.

(** The scenario of the specification: after loading ["a\nb\nc\n"],
    [add_line(1, "x")] gives ["a\nx\nb\nc\n"] and four lines, in both
    classes. *)
Lemma add_line_scenario :
  PieceTable.lines (PieceTable.__init__ three_lines) = 3 /\
  snd (PieceTable.add_line 1 (lit "x") (PieceTable.__init__ three_lines))
  = Return tt /\
  PieceTable.__str__
    (fst (PieceTable.add_line 1 (lit "x") (PieceTable.__init__ three_lines)))
  = Return (text_a ++ text_x ++ text_b ++ text_c) /\
  PieceTable.lines
    (fst (PieceTable.add_line 1 (lit "x") (PieceTable.__init__ three_lines)))
  = 4 /\
  ArrayOfStrings.add_line 1 (lit "x")
    (ArrayOfStrings.mk (readlines three_lines))
  = (ArrayOfStrings.mk [text_a; text_x; text_b; text_c], Return tt).
Proof. repeat split; vm_compute; reflexivity. Qed.

(** Insertion in an [ArrayOfStrings] has the shape the claim describes. *)
Lemma ArrayOfStrings_add_line_shape self n new_line :
  0 <= n <= len (ArrayOfStrings.data self) ->
  exists data',
    ArrayOfStrings.add_line n new_line self
    = (ArrayOfStrings.mk data', Return tt) /\
    len data' = len (ArrayOfStrings.data self) + 1 /\
    data' !! Z.to_nat n = Some (normalized new_line) /\
    (forall j : nat, (j < Z.to_nat n)%nat ->
                     data' !! j = ArrayOfStrings.data self !! j) /\
    (forall j : nat, (Z.to_nat n <= j)%nat ->
                     data' !! S j = ArrayOfStrings.data self !! j).
Proof.
  intros Hn. exists (insert_at n (normalized new_line) (ArrayOfStrings.data self)).
  split; [|by apply insert_at_shape].
  rewrite array_add_line_eq. by rewrite index_overflows_in_range by lia.
Qed.

(** C3. Appending a line after the last piece leaves a zero-length piece in
    a document that is not empty: [add_line(1, "x")] on ["a\n"] splits the
    only piece at its end. *)
Theorem add_line_at_piece_end_leaves_empty_piece :
  PieceTable.pieces
    (fst (PieceTable.add_line 1 (lit "x") (PieceTable.__init__ text_a)))
  = [Piece.mk Source.original 0 2; Piece.mk Source.add 0 2;
     Piece.mk Source.original 2 0] /\
  PieceTable.__str__
    (fst (PieceTable.add_line 1 (lit "x") (PieceTable.__init__ text_a)))
  = Return (text_a ++ text_x).
Proof. split; vm_compute; reflexivity. Qed.

(** X10. The other half of the invariant holds: the lengths of the pieces
    of a reachable piece table add up to the length of its text. *)
Lemma reachable_total_length self :
  FileEditor.reachable self ->
  exists output, PieceTable.__str__ self = Return output /\
                 len output = total_length (PieceTable.pieces self).
Proof.
  intros Hreach. apply reachable_pieces_ok in Hreach.
  destruct (str_loop_ok self (PieceTable.pieces self) [] Hreach)
    as (out & Hout & Hlen).
  exists out. split; [done|]. rewrite Hlen. done.
Qed.

(** C4, as stated, fails on the text ["\n"]: the index is [{0: 0, 1: 0}],
    so entry 1 is the position of the terminator and not the offset after
    it, the entries do not increase strictly, and there are two of them
    for a line count of 1. *)
Lemma line_index_of_blank_line_counterexample :
  PieceTable.line_indexes (PieceTable.__init__ [newline]) = {[0 := 0; 1 := 0]} /\
  PieceTable.lines (PieceTable.__init__ [newline]) = 1 /\
  ~ spec_line_index [newline]
      (PieceTable.line_indexes (PieceTable.__init__ [newline]))
      (PieceTable.lines (PieceTable.__init__ [newline])).
Proof.
  split; [vm_compute; reflexivity|]. split; [vm_compute; reflexivity|].
  intros (_ & _ & Hinc & _).
  specialize (Hinc 0 1 0 0). vm_compute in Hinc.
  specialize (Hinc eq_refl eq_refl eq_refl). discriminate.
Qed.

(** C4, amended. After loading [text], whose number of line terminators
    is [n]: the line count is [n]; the keys of the line index are 0 to [n],
    so there are [n + 1] entries; entry 0 is 0; entry [k], for [k] from 1
    to [n], is the position of the [k]-th terminator; and the entries from
    1 on increase strictly. *)
Theorem line_index_built_by_load (text : str) :
  PieceTable.lines (PieceTable.__init__ text) = newlines text /\
  line_index_inv text
    (PieceTable.line_indexes (PieceTable.__init__ text))
    (PieceTable.lines (PieceTable.__init__ text)).
Proof.
  destruct (initialize_line_indexes text) as [Hli Hlines].
  pose proof (make_line_indexes_inv text) as Hinv.
  unfold PieceTable.__init__. rewrite Hli, Hlines.
  split; [exact (inv_count _ _ _ Hinv) | exact Hinv].
Qed.

(** C5. [add_line] never touches the line index: the dictionary it builds
    is dropped. After [add_line(1, "x")] on ["a\nb\nc\n"] the index is still
    [{0: 0, 1: 1, 2: 3, 3: 5}], while the line count has become 4. *)
Theorem add_line_leaves_line_index_stale :
  (forall line_number new_line self,
      PieceTable.line_indexes
        (fst (PieceTable.add_line line_number new_line self))
      = PieceTable.line_indexes self) /\
  PieceTable.line_indexes
    (fst (PieceTable.add_line 1 (lit "x") (PieceTable.__init__ three_lines)))
  = {[0 := 0; 1 := 1; 2 := 3; 3 := 5]} /\
  PieceTable.lines
    (fst (PieceTable.add_line 1 (lit "x") (PieceTable.__init__ three_lines)))
  = 4.
Proof.
  split; [exact add_line_line_indexes|]. split; vm_compute; reflexivity.
Qed.

(** C6, as stated, fails for the piece table: on the one-line document
    ["a\n"], [edit_line(0, "y")] does not succeed, it raises
    [NotImplementedError]. *)
Lemma piece_table_edit_line_counterexample :
  0 <= 0 < PieceTable.lines (PieceTable.__init__ text_a) /\
  FileEditor.PieceTable_invoke (FileEditor.edit_line 0 (lit "y"))
    (∅, PieceTable.__init__ text_a)
  = ((∅, PieceTable.__init__ text_a), Raise NotImplementedError) /\
  snd (FileEditor.PieceTable_invoke (FileEditor.edit_line 0 (lit "y"))
         (∅, PieceTable.__init__ text_a)) <> Return tt.
Proof. repeat split; try (vm_compute; reflexivity); try done. Qed.

(** C6, amended. In [ArrayOfStrings], [edit_line(n, text)] with [n] in
    [[0, line_count)] returns and leaves the same document as
    [remove_line(n)] followed by [add_line(n, text)]. In [PieceTable],
    [edit_line] always raises [NotImplementedError] and changes nothing. *)
Theorem edit_line_equivalence :
  (forall self n text,
      0 <= n < len (ArrayOfStrings.data self) ->
      snd (ArrayOfStrings.edit_line n text self) = Return tt /\
      ArrayOfStrings.edit_line n text self
      = (do _ <- ArrayOfStrings.remove_line n ;
         ArrayOfStrings.add_line n text) self) /\
  (forall self n text,
      PieceTable.edit_line n text self = (self, Raise NotImplementedError)).
Proof.
  split; [|done]. intros [data] n text Hn. simpl in Hn.
  unfold bind. rewrite array_edit_line_eq, array_remove_line_eq. simpl.
  rewrite index_overflows_in_range by lia.
  rewrite item_index_in_range by done. split; [done|].
  assert (Z.to_nat n < length data)%nat as Hk by (unfold len in Hn; lia).
  destruct (delete_shape data (Z.to_nat n) Hk) as (Hlen & _).
  rewrite array_add_line_eq. simpl.
  rewrite index_overflows_in_range by lia.
  rewrite insert_at_in_range by lia.
  by rewrite insert_after_delete.
Qed.

Lemma edit_line_equivalence_witness :
  0 <= 1 < len (ArrayOfStrings.data (ArrayOfStrings.mk [text_a; text_b])) /\
  snd (ArrayOfStrings.edit_line 1 (lit "y")
         (ArrayOfStrings.mk [text_a; text_b])) = Return tt /\
  ArrayOfStrings.edit_line 1 (lit "y") (ArrayOfStrings.mk [text_a; text_b])
  = (do _ <- ArrayOfStrings.remove_line 1 ;
     ArrayOfStrings.add_line 1 (lit "y")) (ArrayOfStrings.mk [text_a; text_b]).
Proof.
  assert (0 <= 1 < len (ArrayOfStrings.data
                          (ArrayOfStrings.mk [text_a; text_b]))) as H
    by (vm_compute; split; [discriminate | reflexivity]).
  split; [exact H|].
  exact (proj1 edit_line_equivalence (ArrayOfStrings.mk [text_a; text_b])
           1 (lit "y") H).
Defined.

(** C7, as stated, fails for the array of strings: on the one-line
    document [["a\n"]], [add_line(2, "x")] does not fail, it appends. *)
Lemma array_add_line_past_end_counterexample :
  len (ArrayOfStrings.data (ArrayOfStrings.mk [text_a])) = 1 /\
  ArrayOfStrings.add_line 2 (lit "x") (ArrayOfStrings.mk [text_a])
  = (ArrayOfStrings.mk [text_a; text_x], Return tt).
Proof. split; vm_compute; reflexivity. Qed.

(** C7, amended. [ArrayOfStrings.add_line] raises only [OverflowError],
    changing nothing, when the line number does not fit a C [ssize_t];
    with any other line number it returns, and at or past the line count
    it appends. [ArrayOfStrings.remove_line] raises [OverflowError] in the
    same case and [IndexError], changing nothing, when the line number
    fits and is at or past the line count or below its opposite (so always
    on an empty document), and returns otherwise. [PieceTable.add_line]
    raises [ValueError], changing nothing, when the line number exceeds the
    line count, raises [KeyError] when it is negative, and returns for
    every line number from 0 to the line count on a freshly loaded text.
    [PieceTable] has no [remove_line]: calling it raises
    [AttributeError]. *)
Theorem line_number_bounds :
  (forall self n text,
      fits_ssize_t n ->
      snd (ArrayOfStrings.add_line n text self) = Return tt) /\
  (forall self n text,
      len (ArrayOfStrings.data self) <= ssize_t_max -> ~ fits_ssize_t n ->
      ArrayOfStrings.add_line n text self = (self, Raise OverflowError)) /\
  (forall self n text,
      len (ArrayOfStrings.data self) <= n -> fits_ssize_t n ->
      fst (ArrayOfStrings.add_line n text self)
      = ArrayOfStrings.mk (ArrayOfStrings.data self ++ [normalized text])) /\
  (forall self n,
      n < - len (ArrayOfStrings.data self) \/
      len (ArrayOfStrings.data self) <= n ->
      fits_ssize_t n ->
      ArrayOfStrings.remove_line n self = (self, Raise IndexError)) /\
  (forall self n,
      len (ArrayOfStrings.data self) <= ssize_t_max -> ~ fits_ssize_t n ->
      ArrayOfStrings.remove_line n self = (self, Raise OverflowError)) /\
  (forall self n,
      - len (ArrayOfStrings.data self) <= n < len (ArrayOfStrings.data self) ->
      snd (ArrayOfStrings.remove_line n self) = Return tt) /\
  (forall self n text,
      n > PieceTable.lines self ->
      PieceTable.add_line n text self = (self, Raise ValueError)) /\
  (forall T n text,
      0 <= n <= PieceTable.lines (PieceTable.__init__ T) ->
      snd (PieceTable.add_line n text (PieceTable.__init__ T)) = Return tt) /\
  (forall self n text,
      FileEditor.reachable self -> n < 0 ->
      snd (PieceTable.add_line n text self) = Raise KeyError) /\
  (forall w n,
      FileEditor.PieceTable_invoke (FileEditor.remove_line n) w
      = (w, Raise AttributeError)).
Proof.
  repeat apply conj.
  - intros self n text Hn. rewrite array_add_line_eq.
    by rewrite index_overflows_fits.
  - intros self n text Hlen Hn. rewrite array_add_line_eq.
    by rewrite index_overflows_outside.
  - intros self n text Hlen Hn. rewrite array_add_line_eq.
    rewrite index_overflows_fits by done. simpl.
    by rewrite insert_at_past_end.
  - intros self n Hn Hfits. rewrite array_remove_line_eq.
    rewrite index_overflows_fits by done.
    by rewrite item_index_out_of_range.
  - intros self n Hlen Hn. rewrite array_remove_line_eq.
    by rewrite index_overflows_outside.
  - intros self n Hn. rewrite array_remove_line_eq.
    rewrite index_overflows_in_range by lia.
    unfold item_index. cbv zeta. repeat case_bool_decide; (done || lia).
  - intros self n text Hn. rewrite add_line_eq.
    by rewrite bool_decide_eq_true_2.
  - intros T n text Hn. by apply add_line_fresh_returns.
  - intros self n text Hreach Hn. by rewrite add_line_negative.
  - done.
Qed.

Lemma line_number_bounds_witness :
  (fits_ssize_t 1 /\
   snd (ArrayOfStrings.add_line 1 (lit "x") (ArrayOfStrings.mk [text_a]))
   = Return tt) /\
  (len (ArrayOfStrings.data (ArrayOfStrings.mk [text_a])) <= ssize_t_max /\
   ~ fits_ssize_t (2 ^ 63) /\
   ArrayOfStrings.add_line (2 ^ 63) (lit "x") (ArrayOfStrings.mk [text_a])
   = (ArrayOfStrings.mk [text_a], Raise OverflowError)) /\
  (len (ArrayOfStrings.data (ArrayOfStrings.mk [text_a])) <= 1 /\
   fst (ArrayOfStrings.add_line 1 (lit "x") (ArrayOfStrings.mk [text_a]))
   = ArrayOfStrings.mk
       (ArrayOfStrings.data (ArrayOfStrings.mk [text_a])
          ++ [normalized (lit "x")])) /\
  ((1 < - len (ArrayOfStrings.data (ArrayOfStrings.mk [text_a])) \/
    len (ArrayOfStrings.data (ArrayOfStrings.mk [text_a])) <= 1) /\
   ArrayOfStrings.remove_line 1 (ArrayOfStrings.mk [text_a])
   = (ArrayOfStrings.mk [text_a], Raise IndexError)) /\
  (ArrayOfStrings.remove_line (2 ^ 63) (ArrayOfStrings.mk [text_a])
   = (ArrayOfStrings.mk [text_a], Raise OverflowError)) /\
  (- len (ArrayOfStrings.data (ArrayOfStrings.mk [text_a])) <= 0
   < len (ArrayOfStrings.data (ArrayOfStrings.mk [text_a])) /\
   snd (ArrayOfStrings.remove_line 0 (ArrayOfStrings.mk [text_a]))
   = Return tt) /\
  (2 > PieceTable.lines (PieceTable.__init__ text_a) /\
   PieceTable.add_line 2 (lit "x") (PieceTable.__init__ text_a)
   = (PieceTable.__init__ text_a, Raise ValueError)) /\
  (0 <= 1 <= PieceTable.lines (PieceTable.__init__ text_a) /\
   snd (PieceTable.add_line 1 (lit "x") (PieceTable.__init__ text_a))
   = Return tt) /\
  (FileEditor.reachable (PieceTable.__init__ text_a) /\ -1 < 0 /\
   snd (PieceTable.add_line (-1) (lit "x") (PieceTable.__init__ text_a))
   = Raise KeyError).
Proof.
  destruct line_number_bounds
    as (H1 & H1' & H2 & H3 & H3' & H4 & H5 & H6 & H7 & _).
  assert (fits_ssize_t 1) as F1
    by (vm_compute; split; discriminate).
  assert (~ fits_ssize_t (2 ^ 63)) as F2
    by (vm_compute; intros [_ F]; apply F; reflexivity).
  assert (len (ArrayOfStrings.data (ArrayOfStrings.mk [text_a]))
          <= ssize_t_max) as A1
    by (vm_compute; discriminate).
  assert (len (ArrayOfStrings.data (ArrayOfStrings.mk [text_a])) <= 1) as A2
    by (vm_compute; discriminate).
  assert (- len (ArrayOfStrings.data (ArrayOfStrings.mk [text_a])) <= 0
          < len (ArrayOfStrings.data (ArrayOfStrings.mk [text_a]))) as A4
    by (vm_compute; split; [discriminate | reflexivity]).
  assert (2 > PieceTable.lines (PieceTable.__init__ text_a)) as A5
    by (vm_compute; reflexivity).
  assert (0 <= 1 <= PieceTable.lines (PieceTable.__init__ text_a)) as A6
    by (vm_compute; split; discriminate).
  assert (-1 < 0) as A7 by lia.
  split; [split; [exact F1 | exact (H1 _ 1 (lit "x") F1)]|].
  split; [split; [exact A1 | split;
                   [exact F2 | exact (H1' _ (2 ^ 63) (lit "x") A1 F2)]]|].
  split; [split; [exact A2 | exact (H2 _ 1 (lit "x") A2 F1)]|].
  split; [split; [right; exact A2 | exact (H3 _ 1 (or_intror A2) F1)]|].
  split; [exact (H3' _ (2 ^ 63) A1 F2)|].
  split; [split; [exact A4 | exact (H4 _ 0 A4)]|].
  split; [split; [exact A5 | exact (H5 _ 2 (lit "x") A5)]|].
  split; [split; [exact A6 | exact (H6 text_a 1 (lit "x") A6)]|].
  split; [apply FileEditor.reachable_init|].
  split; [exact A7|].
  exact (H7 _ (-1) (lit "x") (FileEditor.reachable_init text_a) A7).
Defined.

(** C8. [add_line] is not all-or-nothing. With a negative line number it
    appends the text to the add buffer and then raises [KeyError]; with the
    valid line number 1 on a one-line document obtained by an earlier
    [add_line], it does the same. *)
Theorem add_line_raises_after_append :
  PieceTable.add_line (-1) (lit "x") (PieceTable.__init__ text_a)
  = (PieceTable.set_add text_x (PieceTable.__init__ text_a), Raise KeyError) /\
  PieceTable.add (PieceTable.__init__ text_a) = [] /\
  PieceTable.lines
    (fst (PieceTable.add_line 0 (lit "x") (PieceTable.__init__ []))) = 1 /\
  PieceTable.add
    (fst (PieceTable.add_line 0 (lit "x") (PieceTable.__init__ []))) = text_x /\
  snd (PieceTable.add_line 1 (lit "y")
         (fst (PieceTable.add_line 0 (lit "x") (PieceTable.__init__ []))))
  = Raise KeyError /\
  PieceTable.add
    (fst (PieceTable.add_line 1 (lit "y")
            (fst (PieceTable.add_line 0 (lit "x") (PieceTable.__init__ [])))))
  = text_x ++ text_y.
Proof. repeat split; vm_compute; reflexivity. Qed.

(** X18. The other failures leave the document as it was: [edit_line] of a
    piece table, the missing [remove_line], [add_line] when it raises
    [ValueError], and every failure of an [ArrayOfStrings] method. *)
Lemma other_failures_atomic :
  (forall n s w,
      fst (FileEditor.PieceTable_invoke (FileEditor.edit_line n s) w) = w) /\
  (forall n w,
      fst (FileEditor.PieceTable_invoke (FileEditor.remove_line n) w) = w) /\
  (forall n s self,
      snd (PieceTable.add_line n s self) = Raise ValueError ->
      fst (PieceTable.add_line n s self) = self) /\
  (forall n s self,
      raised (snd (ArrayOfStrings.edit_line n s self)) ->
      fst (ArrayOfStrings.edit_line n s self) = self) /\
  (forall n s self,
      raised (snd (ArrayOfStrings.add_line n s self)) ->
      fst (ArrayOfStrings.add_line n s self) = self) /\
  (forall n self,
      raised (snd (ArrayOfStrings.remove_line n self)) ->
      fst (ArrayOfStrings.remove_line n self) = self).
Proof.
  repeat split.
  - intros n s [fs self]. done.
  - intros n s self. rewrite add_line_eq. case_bool_decide; [done|].
    destruct (PieceTable.line_indexes self !! n) as [v|]; simpl; [|done].
    by destruct (new_line_indexes_outcome_cases self n v s) as [-> | ->].
  - intros n s self. rewrite array_edit_line_eq.
    by destruct (item_index _ n).
  - intros n s self. rewrite array_add_line_eq.
    by destruct (index_overflows _ n).
  - intros n self. rewrite array_remove_line_eq.
    destruct (index_overflows _ n); [done|].
    by destruct (item_index _ n).
Qed.

Lemma other_failures_atomic_witness :
  (snd (PieceTable.add_line 2 (lit "x") (PieceTable.__init__ text_a))
   = Raise ValueError /\
   fst (PieceTable.add_line 2 (lit "x") (PieceTable.__init__ text_a))
   = PieceTable.__init__ text_a) /\
  (raised (snd (ArrayOfStrings.edit_line 1 (lit "x")
                  (ArrayOfStrings.mk [text_a]))) /\
   fst (ArrayOfStrings.edit_line 1 (lit "x") (ArrayOfStrings.mk [text_a]))
   = ArrayOfStrings.mk [text_a]) /\
  (raised (snd (ArrayOfStrings.add_line (2 ^ 63) (lit "x")
                  (ArrayOfStrings.mk [text_a]))) /\
   fst (ArrayOfStrings.add_line (2 ^ 63) (lit "x")
          (ArrayOfStrings.mk [text_a]))
   = ArrayOfStrings.mk [text_a]) /\
  (raised (snd (ArrayOfStrings.remove_line 1 (ArrayOfStrings.mk [text_a]))) /\
   fst (ArrayOfStrings.remove_line 1 (ArrayOfStrings.mk [text_a]))
   = ArrayOfStrings.mk [text_a]).
Proof.
  destruct other_failures_atomic as (_ & _ & H3 & H4 & H5 & H6).
  assert (snd (PieceTable.add_line 2 (lit "x") (PieceTable.__init__ text_a))
          = Raise ValueError) as A3 by (vm_compute; reflexivity).
  assert (raised (snd (ArrayOfStrings.edit_line 1 (lit "x")
                         (ArrayOfStrings.mk [text_a])))) as A4
    by (vm_compute; exact I).
  assert (raised (snd (ArrayOfStrings.add_line (2 ^ 63) (lit "x")
                         (ArrayOfStrings.mk [text_a])))) as A5
    by (vm_compute; exact I).
  assert (raised (snd (ArrayOfStrings.remove_line 1
                         (ArrayOfStrings.mk [text_a])))) as A6
    by (vm_compute; exact I).
  split; [split; [exact A3 | exact (H3 _ _ _ A3)]|].
  split; [split; [exact A4 | exact (H4 _ _ _ A4)]|].
  split; [split; [exact A5 | exact (H5 _ _ _ A5)]|].
  split; [exact A6 | exact (H6 _ _ A6)].
Defined.

(** C9, as stated, fails for the piece table: on the one-line document
    ["a\n"], [remove_line(0)] raises [AttributeError] and the document
    keeps its line. *)
Lemma piece_table_remove_line_counterexample :
  0 <= 0 < PieceTable.lines (PieceTable.__init__ text_a) /\
  FileEditor.PieceTable_invoke (FileEditor.remove_line 0)
    (∅, PieceTable.__init__ text_a)
  = ((∅, PieceTable.__init__ text_a), Raise AttributeError) /\
  PieceTable.__str__ (PieceTable.__init__ text_a) = Return text_a.
Proof. repeat split; try (vm_compute; reflexivity); done. Qed.

(** C9, amended. In [ArrayOfStrings], [remove_line(n)] with [n] in
    [[0, line_count)] returns and leaves one line fewer: the lines before
    [n] are unchanged and every later line moves up by one. [PieceTable]
    has no [remove_line]: calling it raises [AttributeError] and changes
    nothing. *)
Theorem remove_line_shape :
  (forall self n,
      0 <= n < len (ArrayOfStrings.data self) ->
      exists data',
        ArrayOfStrings.remove_line n self
        = (ArrayOfStrings.mk data', Return tt) /\
        len data' = len (ArrayOfStrings.data self) - 1 /\
        (forall j : nat, (j < Z.to_nat n)%nat ->
                         data' !! j = ArrayOfStrings.data self !! j) /\
        (forall j : nat, (Z.to_nat n <= j)%nat ->
                         data' !! j = ArrayOfStrings.data self !! S j)) /\
  (forall w n,
      FileEditor.PieceTable_invoke (FileEditor.remove_line n) w
      = (w, Raise AttributeError)).
Proof.
  split; [|done]. intros [data] n Hn. simpl in *.
  exists (delete (Z.to_nat n) data). split.
  - rewrite array_remove_line_eq. simpl.
    rewrite index_overflows_in_range by lia.
    by rewrite item_index_in_range.
  - apply delete_shape. unfold len in Hn. lia.
Qed.

Lemma remove_line_shape_witness :
  0 <= 1 < len (ArrayOfStrings.data
                  (ArrayOfStrings.mk [text_a; text_b; text_c])) /\
  exists data',
    ArrayOfStrings.remove_line 1 (ArrayOfStrings.mk [text_a; text_b; text_c])
    = (ArrayOfStrings.mk data', Return tt) /\
    len data'
    = len (ArrayOfStrings.data
             (ArrayOfStrings.mk [text_a; text_b; text_c])) - 1 /\
    (forall j : nat,
        (j < Z.to_nat 1)%nat ->
        data' !! j
        = ArrayOfStrings.data
            (ArrayOfStrings.mk [text_a; text_b; text_c]) !! j) /\
    (forall j : nat,
        (Z.to_nat 1 <= j)%nat ->
        data' !! j
        = ArrayOfStrings.data
            (ArrayOfStrings.mk [text_a; text_b; text_c]) !! S j).
Proof.
  assert (0 <= 1 < len (ArrayOfStrings.data
                          (ArrayOfStrings.mk [text_a; text_b; text_c]))) as H
    by (vm_compute; split; [discriminate | reflexivity]).
  split; [exact H|].
  exact (proj1 remove_line_shape
           (ArrayOfStrings.mk [text_a; text_b; text_c]) 1 H).
Defined.

(** C10. Every piece that the constructor, [read_file] and [add_line] put in
    the piece list has source [Source.original] or [Source.add]; hence
    neither [__str__] nor [write_file] ever reaches its
    [ValueError("Invalid Piece source")] branch. *)
Theorem invalid_source_unreachable self :
  FileEditor.reachable self ->
  Forall (fun p => Piece.source p = Source.original \/
                   Piece.source p = Source.add) (PieceTable.pieces self) /\
  (exists output, PieceTable.__str__ self = Return output) /\
  (forall file_name fs,
      snd (PieceTable.write_file file_name self fs) = Return tt).
Proof.
  intros Hreach. apply reachable_pieces_ok in Hreach. split; [|split].
  - eapply Forall_impl; [exact Hreach|].
    intros p (_ & _ & [[? _]|[? _]]); auto.
  - destruct (str_loop_ok self (PieceTable.pieces self) [] Hreach)
      as (out & Hout & _).
    by exists out.
  - intros file_name fs. unfold PieceTable.write_file, bind at 1.
    by apply write_file_loop_ok.
Qed.

Lemma invalid_source_unreachable_witness :
  FileEditor.reachable after_add_line /\
  Forall (fun p => Piece.source p = Source.original \/
                   Piece.source p = Source.add)
    (PieceTable.pieces after_add_line) /\
  (exists output, PieceTable.__str__ after_add_line = Return output) /\
  (forall file_name fs,
      snd (PieceTable.write_file file_name after_add_line fs) = Return tt).
Proof.
  assert (FileEditor.reachable after_add_line) as H
    by apply FileEditor.reachable_call, FileEditor.reachable_init.
  split; [exact H|]. exact (invalid_source_unreachable after_add_line H).
Defined.

(** ** Further properties of [ArrayOfStrings] *)

Lemma concat_readlines_from cur s : concat (readlines_from cur s) = cur ++ s.
Proof.
  revert cur. induction s as [|c s IH]; intros cur; simpl.
  - destruct cur; simpl; by rewrite ?app_nil_r.
  - case_bool_decide.
    + simpl. rewrite IH. by rewrite <- app_assoc.
    + rewrite IH. by rewrite <- app_assoc.
Qed.



Lemma endswith_newline_snoc s : endswith_newline (s ++ [newline]) = true.
Proof.
  unfold endswith_newline. rewrite last_snoc. by apply bool_decide_eq_true_2.
Qed.

Lemma normalized_endswith s : endswith_newline (normalized s) = true.
Proof.
  unfold normalized. destruct (endswith_newline s) eqn:E; [done|].
  apply endswith_newline_snoc.
Qed.

Lemma slice_bound_range n i : 0 <= n -> 0 <= slice_bound n i <= n.
Proof. intros Hn. unfold slice_bound. case_bool_decide; lia. Qed.

Lemma universal_newlines_id s :
  carriage_return ∉ s -> universal_newlines s = s.
Proof.
  induction s as [|c s IH]; intros Hs; [done|].
  apply not_elem_of_cons in Hs as [Hc Hs]. simpl.
  rewrite bool_decide_eq_false_2 by done. by rewrite IH.
Qed.

Lemma universal_newlines_no_cr s : carriage_return ∉ universal_newlines s.
Proof.
  assert (forall n s, (length s <= n)%nat ->
                      carriage_return ∉ universal_newlines s) as H.
  { clear s. induction n as [|n IH]; intros [|c s] Hlen; simpl in *;
      try apply not_elem_of_nil; try lia.
    case_bool_decide as Hc.
    - apply not_elem_of_cons. split; [done|].
      destruct s as [|d s]; [apply not_elem_of_nil|].
      case_bool_decide; apply IH; simpl in *; lia.
    - apply not_elem_of_cons. split; [done|]. apply IH. lia. }
  by apply (H (length s)).
Qed.




(** X2. Whatever the line number, as long as it fits a C [ssize_t],
    [ArrayOfStrings.add_line] returns and inserts exactly one line, the
    text with its terminator, keeping all the other lines in order. The
    position is the line number itself from 0 to the line count, the end
    beyond it, and counted from the end for a negative number, stopping
    at 0. *)
Theorem array_add_line_inserts_one_line self n text :
  fits_ssize_t n ->
  snd (ArrayOfStrings.add_line n text self) = Return tt /\
  endswith_newline (normalized text) = true /\
  exists k : nat,
    ArrayOfStrings.data (fst (ArrayOfStrings.add_line n text self)) !! k
    = Some (normalized text) /\
    delete k (ArrayOfStrings.data (fst (ArrayOfStrings.add_line n text self)))
    = ArrayOfStrings.data self /\
    (0 <= n <= len (ArrayOfStrings.data self) -> Z.of_nat k = n) /\
    (len (ArrayOfStrings.data self) <= n ->
     Z.of_nat k = len (ArrayOfStrings.data self)) /\
    (- len (ArrayOfStrings.data self) <= n < 0 ->
     Z.of_nat k = len (ArrayOfStrings.data self) + n) /\
    (n < - len (ArrayOfStrings.data self) -> k = 0%nat).
Proof.
  destruct self as [data]. simpl. intros Hfits.
  rewrite array_add_line_eq, index_overflows_fits by done. simpl.
  split; [done|]. split; [apply normalized_endswith|].
  pose proof (len_nonneg data) as Hlen.
  pose proof (slice_bound_range (len data) n Hlen) as Hk.
  exists (Z.to_nat (slice_bound (len data) n)).
  unfold insert_at.
  set (k := Z.to_nat (slice_bound (len data) n)).
  assert (length (take k data) = k) as Htake
    by (rewrite length_take; unfold len in *; lia).
  split; [|split].
  - rewrite lookup_app_r by lia. by rewrite Htake, Nat.sub_diag.
  - rewrite <- Htake at 1. rewrite delete_middle. apply take_drop.
  - subst k. unfold slice_bound in *. repeat split; intros Hn;
      case_bool_decide; lia.
Qed.

Lemma array_add_line_inserts_one_line_witness :
  fits_ssize_t (-1) /\
  snd (ArrayOfStrings.add_line (-1) (lit "x")
         (ArrayOfStrings.mk [text_a; text_b])) = Return tt.
Proof.
  assert (fits_ssize_t (-1)) as H by (vm_compute; split; discriminate).
  split; [exact H|].
  exact (proj1 (array_add_line_inserts_one_line
                  (ArrayOfStrings.mk [text_a; text_b]) (-1) (lit "x") H)).
Defined.

(** X3. In an [ArrayOfStrings], [add_line(n, text)] followed by
    [remove_line(n)], for [n] from 0 to the line count, gives the document
    back. *)
Theorem array_add_then_remove self n text :
  0 <= n <= len (ArrayOfStrings.data self) ->
  (do _ <- ArrayOfStrings.add_line n text ;
   ArrayOfStrings.remove_line n) self = (self, Return tt).
Proof.
  destruct self as [data]. simpl. intros Hn.
  unfold bind. rewrite array_add_line_eq. simpl.
  rewrite index_overflows_in_range by lia.
  rewrite array_remove_line_eq. simpl.
  rewrite insert_at_in_range by done.
  set (k := Z.to_nat n).
  assert (length (take k data) = k) as Htake
    by (rewrite length_take; unfold len in *; lia).
  assert (len (take k data ++ normalized text :: drop k data) = len data + 1)
    as Hlen.
  { rewrite len_app. unfold len in *. simpl length.
    rewrite length_take, length_drop. lia. }
  rewrite index_overflows_in_range by lia.
  rewrite item_index_in_range by lia.
  fold k. rewrite <- Htake at 1. rewrite delete_middle.
  by rewrite take_drop.
Qed.

Lemma array_add_then_remove_witness :
  0 <= 1 <= len (ArrayOfStrings.data (ArrayOfStrings.mk [text_a; text_b])) /\
  (do _ <- ArrayOfStrings.add_line 1 (lit "x") ;
   ArrayOfStrings.remove_line 1) (ArrayOfStrings.mk [text_a; text_b])
  = (ArrayOfStrings.mk [text_a; text_b], Return tt).
Proof.
  assert (0 <= 1 <= len (ArrayOfStrings.data
                           (ArrayOfStrings.mk [text_a; text_b]))) as H
    by (vm_compute; split; discriminate).
  split; [exact H|].
  exact (array_add_then_remove (ArrayOfStrings.mk [text_a; text_b]) 1
           (lit "x") H).
Defined.

(** X4. In an [ArrayOfStrings] a negative line number counts from the end:
    for [n] from [-line_count] to -1, [edit_line] and [remove_line] act on
    line [n + line_count], and [add_line] inserts before that line; in
    particular [remove_line(-1)] removes the last line. *)
Theorem array_negative_line_numbers self n text :
  - len (ArrayOfStrings.data self) <= n < 0 ->
  ArrayOfStrings.edit_line n text self
  = ArrayOfStrings.edit_line (n + len (ArrayOfStrings.data self)) text self /\
  ArrayOfStrings.remove_line n self
  = ArrayOfStrings.remove_line (n + len (ArrayOfStrings.data self)) self /\
  ArrayOfStrings.add_line n text self
  = ArrayOfStrings.add_line (n + len (ArrayOfStrings.data self)) text self /\
  (n = -1 ->
   ArrayOfStrings.remove_line n self
   = (ArrayOfStrings.mk (removelast (ArrayOfStrings.data self)), Return tt)).
Proof.
  destruct self as [data]. simpl. intros Hn.
  assert (item_index (len data) n = item_index (len data) (n + len data))
    as Hidx.
  { unfold item_index. cbv zeta. repeat case_bool_decide; (done || lia). }
  assert (slice_bound (len data) n = slice_bound (len data) (n + len data))
    as Hpos.
  { unfold slice_bound. repeat case_bool_decide; lia. }
  pose proof (len_nonneg data) as Hlen.
  rewrite !array_edit_line_eq, !array_remove_line_eq, !array_add_line_eq.
  simpl. rewrite !index_overflows_in_range by lia.
  unfold insert_at. rewrite Hidx, Hpos. repeat split. intros ->.
  rewrite item_index_in_range by lia. f_equal. f_equal.
  destruct (decide (data = [])) as [->|Hne]; [unfold len in Hn; simpl in Hn; lia|].
  destruct (exists_last Hne) as (front & x & ->).
  rewrite removelast_last. unfold len. rewrite length_app. simpl.
  replace (Z.to_nat (-1 + Z.of_nat (length front + 1))) with (length front)
    by lia.
  rewrite delete_middle. by rewrite app_nil_r.
Qed.

Lemma array_negative_line_numbers_witness :
  - len (ArrayOfStrings.data (ArrayOfStrings.mk [text_a; text_b])) <= -1 < 0 /\
  ArrayOfStrings.remove_line (-1) (ArrayOfStrings.mk [text_a; text_b])
  = (ArrayOfStrings.mk
       (removelast (ArrayOfStrings.data (ArrayOfStrings.mk [text_a; text_b]))),
     Return tt).
Proof.
  assert (- len (ArrayOfStrings.data (ArrayOfStrings.mk [text_a; text_b]))
          <= -1 < 0) as H
    by (vm_compute; split; [discriminate | reflexivity]).
  split; [exact H|].
  exact (proj2 (proj2 (proj2
           (array_negative_line_numbers (ArrayOfStrings.mk [text_a; text_b])
              (-1) (lit "x") H))) eq_refl).
Defined.

(** X5. In an [ArrayOfStrings], [edit_line(n, text)] with [n] from 0 to the
    line count excluded returns, keeps the line count, makes line [n] the
    text with its terminator and leaves every other line as it was; with
    [n] at or beyond the line count, or below its opposite, it raises
    [IndexError] and changes nothing. *)
Theorem array_edit_line_shape self n text :
  (0 <= n < len (ArrayOfStrings.data self) ->
   snd (ArrayOfStrings.edit_line n text self) = Return tt /\
   len (ArrayOfStrings.data (fst (ArrayOfStrings.edit_line n text self)))
   = len (ArrayOfStrings.data self) /\
   ArrayOfStrings.data (fst (ArrayOfStrings.edit_line n text self))
     !! Z.to_nat n = Some (normalized text) /\
   (forall j : nat,
       j <> Z.to_nat n ->
       ArrayOfStrings.data (fst (ArrayOfStrings.edit_line n text self)) !! j
       = ArrayOfStrings.data self !! j)) /\
  (n < - len (ArrayOfStrings.data self) \/ len (ArrayOfStrings.data self) <= n ->
   ArrayOfStrings.edit_line n text self = (self, Raise IndexError)).
Proof.
  destruct self as [data]. simpl.
  rewrite array_edit_line_eq. simpl. split.
  - intros Hn. rewrite item_index_in_range by done. simpl.
    assert (Z.to_nat n < length data)%nat by (unfold len in Hn; lia).
    repeat split.
    + unfold len. by rewrite length_insert.
    + by apply list_lookup_insert_eq.
    + intros j Hj. by apply list_lookup_insert_ne.
  - intros Hn. by rewrite item_index_out_of_range.
Qed.

Lemma array_edit_line_shape_witness :
  (0 <= 1 < len (ArrayOfStrings.data (ArrayOfStrings.mk [text_a; text_b])) /\
   snd (ArrayOfStrings.edit_line 1 (lit "x")
          (ArrayOfStrings.mk [text_a; text_b])) = Return tt) /\
  ((2 < - len (ArrayOfStrings.data (ArrayOfStrings.mk [text_a; text_b])) \/
    len (ArrayOfStrings.data (ArrayOfStrings.mk [text_a; text_b])) <= 2) /\
   ArrayOfStrings.edit_line 2 (lit "x") (ArrayOfStrings.mk [text_a; text_b])
   = (ArrayOfStrings.mk [text_a; text_b], Raise IndexError)).
Proof.
  assert (0 <= 1 < len (ArrayOfStrings.data
                          (ArrayOfStrings.mk [text_a; text_b]))) as H1
    by (vm_compute; split; [discriminate | reflexivity]).
  assert (len (ArrayOfStrings.data (ArrayOfStrings.mk [text_a; text_b])) <= 2)
    as H2 by (vm_compute; discriminate).
  split.
  - split; [exact H1|].
    exact (proj1 (proj1 (array_edit_line_shape
                           (ArrayOfStrings.mk [text_a; text_b]) 1 (lit "x"))
                    H1)).
  - split; [right; exact H2|].
    exact (proj2 (array_edit_line_shape
                    (ArrayOfStrings.mk [text_a; text_b]) 2 (lit "x"))
             (or_intror H2)).
Defined.



(** ** Further properties of [PieceTable] *)

Lemma slice_take_drop {A} (l : list A) i n :
  0 <= i -> 0 <= n -> i + n <= len l ->
  slice l i (i + n) = take (Z.to_nat n) (drop (Z.to_nat i) l).
Proof.
  intros Hi Hn Hl. unfold slice.
  rewrite !slice_bound_in_range by lia. do 2 f_equal. lia.
Qed.

Lemma slice_app_l {A} (l1 l2 : list A) i n :
  0 <= i -> 0 <= n -> i + n <= len l1 ->
  slice (l1 ++ l2) i (i + n) = slice l1 i (i + n).
Proof.
  intros Hi Hn Hl. pose proof (len_nonneg l2).
  rewrite !slice_take_drop by (rewrite ?len_app; lia).
  unfold len in *. rewrite drop_app_le by lia.
  rewrite take_app_le; [done|]. rewrite length_drop. lia.
Qed.

Lemma str_initialize T :
  PieceTable.__str__ (PieceTable._initialize T) = Return T.
Proof.
  unfold PieceTable.__str__, PieceTable._initialize.
  destruct (PieceTable.make_line_indexes T) as [li n]. simpl.
  destruct T as [|c T]; [done|]. simpl.
  unfold PieceTable.piece_text. simpl.
  by rewrite (slice_whole (c :: T)).
Qed.






Lemma reachable_add_line n s self :
  FileEditor.reachable self ->
  FileEditor.reachable (fst (PieceTable.add_line n s self)).
Proof.
  intros Hreach.
  pose proof (FileEditor.reachable_call (FileEditor.add_line n s) ∅ self Hreach)
    as H.
  simpl in H. unfold FileEditor.on_object in H. simpl in H.
  by destruct (PieceTable.add_line n s self).
Qed.

(** X9. Every piece of a reachable piece table lies within the buffer it
    names, and the text it stands for has exactly its length. *)
Theorem pieces_within_buffers self :
  FileEditor.reachable self ->
  Forall (fun p =>
            piece_ok (PieceTable.original self) (PieceTable.add self) p /\
            len (PieceTable.piece_text
                   (if bool_decide (Piece.source p = Source.original)
                    then PieceTable.original self else PieceTable.add self) p)
            = Piece.length p)
    (PieceTable.pieces self).
Proof.
  intros Hreach. apply reachable_pieces_ok in Hreach.
  eapply Forall_impl; [exact Hreach|]. intros p Hp. split; [done|].
  destruct Hp as (Hs & Hl & [[Hsrc Hb]|[Hsrc Hb]]); unfold PieceTable.piece_text.
  - rewrite bool_decide_eq_true_2 by done. by apply length_slice.
  - rewrite bool_decide_eq_false_2 by (rewrite Hsrc; done).
    by apply length_slice.
Qed.

Lemma pieces_within_buffers_witness :
  FileEditor.reachable after_add_line /\
  Forall (fun p =>
            piece_ok (PieceTable.original after_add_line)
              (PieceTable.add after_add_line) p /\
            len (PieceTable.piece_text
                   (if bool_decide (Piece.source p = Source.original)
                    then PieceTable.original after_add_line
                    else PieceTable.add after_add_line) p)
            = Piece.length p)
    (PieceTable.pieces after_add_line).
Proof.
  assert (FileEditor.reachable after_add_line) as H
    by apply FileEditor.reachable_call, FileEditor.reachable_init.
  split; [exact H|]. exact (pieces_within_buffers after_add_line H).
Defined.

Lemma reachable_total_length_witness :
  FileEditor.reachable after_add_line /\
  exists output, PieceTable.__str__ after_add_line = Return output /\
                 len output = total_length (PieceTable.pieces after_add_line).
Proof.
  assert (FileEditor.reachable after_add_line) as H
    by apply FileEditor.reachable_call, FileEditor.reachable_init.
  split; [exact H|]. exact (reachable_total_length after_add_line H).
Defined.

(** X11. What a call of [add_line] can change. The original buffer and the
    line index are never touched; the add buffer only grows at its end; the
    line count stays or grows by one. When the call returns, the add buffer
    has grown by the text with its terminator and the line count by one.
    The call raises [ValueError] exactly when the line number exceeds the
    line count, and then nothing has changed. *)
Theorem add_line_frame n s self :
  PieceTable.original (fst (PieceTable.add_line n s self))
  = PieceTable.original self /\
  (exists extra,
      PieceTable.add (fst (PieceTable.add_line n s self))
      = PieceTable.add self ++ extra) /\
  PieceTable.lines self
  <= PieceTable.lines (fst (PieceTable.add_line n s self))
  <= PieceTable.lines self + 1 /\
  (snd (PieceTable.add_line n s self) = Return tt ->
   PieceTable.add (fst (PieceTable.add_line n s self))
   = PieceTable.add self ++ normalized s /\
   PieceTable.lines (fst (PieceTable.add_line n s self))
   = PieceTable.lines self + 1) /\
  (snd (PieceTable.add_line n s self) = Raise ValueError
   <-> PieceTable.lines self < n) /\
  (snd (PieceTable.add_line n s self) = Raise ValueError ->
   fst (PieceTable.add_line n s self) = self).
Proof.
  rewrite add_line_eq. case_bool_decide as Hn.
  - simpl. repeat split; try done; try lia.
    by exists []; rewrite app_nil_r.
  - destruct (PieceTable.line_indexes self !! n) as [v|]; simpl.
    + destruct (new_line_indexes_outcome_cases self n v s) as [-> | ->];
        repeat split; try done; try lia; eauto.
    + repeat split; try done; try lia; eauto.
Qed.

Lemma str_loop_add_grows self extra ps acc :
  Forall (piece_ok (PieceTable.original self) (PieceTable.add self)) ps ->
  PieceTable.__str__loop
    (PieceTable.set_add (PieceTable.add self ++ extra) self) ps acc
  = PieceTable.__str__loop self ps acc.
Proof.
  intros Hps. revert acc. induction Hps as [|p ps Hp Hps IH]; intros acc; [done|].
  simpl. rewrite IH.
  destruct Hp as (Hs & Hl & [[Hsrc Hb]|[Hsrc Hb]]).
  - by rewrite !bool_decide_eq_true_2 by done.
  - rewrite !(bool_decide_eq_false_2 (Piece.source p = Source.original))
      by (rewrite Hsrc; done).
    rewrite !bool_decide_eq_true_2 by done.
    unfold PieceTable.piece_text. rewrite IH. by rewrite slice_app_l.
Qed.

(** X12. On a reachable piece table, [add_line] with a negative line number
    raises [KeyError] having changed the add buffer only: the pieces, the
    line count and the text are as before. *)
Theorem add_line_negative_keeps_text self n s :
  FileEditor.reachable self -> n < 0 ->
  snd (PieceTable.add_line n s self) = Raise KeyError /\
  PieceTable.pieces (fst (PieceTable.add_line n s self))
  = PieceTable.pieces self /\
  PieceTable.lines (fst (PieceTable.add_line n s self))
  = PieceTable.lines self /\
  PieceTable.add (fst (PieceTable.add_line n s self))
  = PieceTable.add self ++ normalized s /\
  PieceTable.__str__ (fst (PieceTable.add_line n s self))
  = PieceTable.__str__ self.
Proof.
  intros Hreach Hn. rewrite add_line_negative by done. simpl.
  repeat split. unfold PieceTable.__str__. simpl.
  apply str_loop_add_grows. by apply reachable_pieces_ok.
Qed.

Lemma add_line_negative_keeps_text_witness :
  FileEditor.reachable after_add_line /\ -1 < 0 /\
  snd (PieceTable.add_line (-1) (lit "y") after_add_line) = Raise KeyError /\
  PieceTable.__str__ (fst (PieceTable.add_line (-1) (lit "y") after_add_line))
  = PieceTable.__str__ after_add_line.
Proof.
  assert (FileEditor.reachable after_add_line) as H
    by apply FileEditor.reachable_call, FileEditor.reachable_init.
  assert (-1 < 0) as Hn by lia.
  split; [exact H|]. split; [exact Hn|].
  destruct (add_line_negative_keeps_text after_add_line (-1) (lit "y") H Hn)
    as (H1 & _ & _ & _ & H5).
  split; [exact H1 | exact H5].
Defined.

(** X13. On an empty piece table [add_line(0, text)] returns without
    inserting anything: the text goes to the add buffer and the line count
    becomes 1, but no piece is made and the document stays empty. *)
Theorem add_line_on_empty_document text :
  PieceTable.add_line 0 text (PieceTable.__init__ [])
  = (PieceTable.mk [] {[0 := 0]} 1 (normalized text) [], Return tt) /\
  PieceTable.__str__ (fst (PieceTable.add_line 0 text (PieceTable.__init__ [])))
  = Return [].
Proof. split; reflexivity. Qed.

(** On a freshly loaded text that is not empty, [add_line] splits the only
    piece at the offset after the entry of the line index. *)
Lemma fresh_add_line_text T n text v :
  0 <= v < len T -> n <= PieceTable.lines (PieceTable._initialize T) ->
  PieceTable.line_indexes (PieceTable._initialize T) !! n = Some v ->
  PieceTable.__str__ (fst (PieceTable.add_line n text (PieceTable._initialize T)))
  = Return (take (S (Z.to_nat v)) T ++ normalized text
              ++ drop (S (Z.to_nat v)) T).
Proof.
  intros Hv Hn Hli. rewrite add_line_eq.
  rewrite bool_decide_eq_false_2 by lia. rewrite Hli. simpl.
  remember (take (S (Z.to_nat v)) T ++ normalized text
              ++ drop (S (Z.to_nat v)) T) as expected eqn:Hexp.
  unfold added, PieceTable.__str__. simpl.
  unfold PieceTable._initialize.
  destruct (PieceTable.make_line_indexes T) as [li m]. simpl.
  assert (PieceTable.add_line_loop (v + 1)
            (Piece.mk Source.add (len (@nil ascii)) (len (normalized text)))
            [Piece.mk Source.original 0 (len T)] [] 0
          = [Piece.mk Source.original 0 (v + 1);
             Piece.mk Source.add 0 (len (normalized text));
             Piece.mk Source.original (v + 1) (len T - (v + 1))]) as Hloop.
  { simpl. rewrite !bool_decide_eq_false_2 by lia. simpl.
    by replace (v + 1 - 0) with (v + 1) by lia. }
  destruct T as [|c T]; [unfold len in Hv; simpl in Hv; lia|].
  rewrite Hloop. clear Hloop. set (T' := c :: T) in *. clearbody T'.
  simpl. unfold PieceTable.piece_text. simpl.
  rewrite (slice_take_drop T' 0 (v + 1)) by lia.
  rewrite (slice_whole (normalized text)).
  rewrite (slice_take_drop T' (v + 1) (len T' - (v + 1))) by lia.
  rewrite (take_ge (drop (Z.to_nat (v + 1)) T'))
    by (rewrite length_drop; unfold len in *; lia).
  change (Z.to_nat 0) with 0%nat. rewrite drop_0.
  replace (Z.to_nat (v + 1)) with (S (Z.to_nat v)) by lia.
  by rewrite <- app_assoc, Hexp.
Qed.

(** X14. On a freshly loaded text, [add_line(n, text)] with [n] from 1 to
    the line count returns and puts the text, with its terminator, right
    after the [n]-th line terminator of the text. *)
Theorem fresh_add_line_after_terminator T n text :
  1 <= n <= PieceTable.lines (PieceTable.__init__ T) ->
  exists i,
    kth_terminator T n i /\
    snd (PieceTable.add_line n text (PieceTable.__init__ T)) = Return tt /\
    PieceTable.__str__ (fst (PieceTable.add_line n text (PieceTable.__init__ T)))
    = Return (take (S (Z.to_nat i)) T ++ normalized text
                ++ drop (S (Z.to_nat i)) T).
Proof.
  intros Hn. unfold PieceTable.__init__ in *.
  destruct (initialize_line_indexes T) as [Hli Hlines].
  pose proof (make_line_indexes_inv T) as Hinv.
  rewrite <- Hli, <- Hlines in Hinv.
  destruct (inv_entry _ _ _ Hinv n Hn) as (i & Hi & Hk).
  exists i. split; [done|]. split.
  - apply add_line_fresh_returns. lia.
  - apply fresh_add_line_text; [apply Hk | lia | done].
Qed.

Lemma fresh_add_line_after_terminator_witness :
  1 <= 2 <= PieceTable.lines (PieceTable.__init__ three_lines) /\
  exists i,
    kth_terminator three_lines 2 i /\
    snd (PieceTable.add_line 2 (lit "x") (PieceTable.__init__ three_lines))
    = Return tt /\
    PieceTable.__str__
      (fst (PieceTable.add_line 2 (lit "x") (PieceTable.__init__ three_lines)))
    = Return (take (S (Z.to_nat i)) three_lines ++ normalized (lit "x")
                ++ drop (S (Z.to_nat i)) three_lines).
Proof.
  assert (1 <= 2 <= PieceTable.lines (PieceTable.__init__ three_lines)) as H
    by (vm_compute; split; discriminate).
  split; [exact H|].
  exact (fresh_add_line_after_terminator three_lines 2 (lit "x") H).
Defined.

Lemma new_line_indexes_raises self line_number insert_index new_piece
    xs acc (s : PieceTable.t) :
  (exists i, i ∈ xs /\ line_number < i /\
             PieceTable.line_indexes self !! (i - 1) = None) ->
  for_each xs
    (PieceTable.new_line_indexes_body self line_number insert_index new_piece)
    acc s = (s, Raise KeyError).
Proof.
  revert acc. induction xs as [|j xs IH]; intros acc (i & Hi & Hlt & Hnone).
  - by apply elem_of_nil in Hi.
  - simpl. unfold bind.
    apply elem_of_cons in Hi as [->|Hi].
    + unfold PieceTable.new_line_indexes_body.
      rewrite !bool_decide_eq_false_2 by lia.
      unfold bind, getitem. by rewrite Hnone.
    + destruct (new_line_indexes_body_cases self line_number insert_index
                  new_piece j acc s) as [[m ->] | ->]; [|done].
      apply IH. eauto.
Qed.

Lemma add_line_stale_raises self n s :
  FileEditor.reachable self ->
  newlines (PieceTable.original self) + 2 <= PieceTable.lines self ->
  raised (snd (PieceTable.add_line n s self)).
Proof.
  intros Hreach Hlines. pose proof (reachable_line_index self Hreach) as Hinv.
  pose proof (newlines_nonneg (PieceTable.original self)) as Hnn.
  rewrite add_line_eq. case_bool_decide as Hn; [done|].
  destruct (PieceTable.line_indexes self !! n) as [v|] eqn:Hv; [|done].
  simpl. unfold new_line_indexes_outcome. cbv zeta.
  assert (0 <= n <= newlines (PieceTable.original self)) as Hrange
    by (apply (inv_keys _ _ _ Hinv); eauto).
  rewrite new_line_indexes_raises; [done|].
  exists (PieceTable.lines self). simpl. split; [|split].
  - unfold range. apply elem_of_seqZ. lia.
  - lia.
  - apply eq_None_not_Some. rewrite (inv_keys _ _ _ Hinv). lia.
Qed.

Lemma initialize_lines T :
  PieceTable.lines (PieceTable.__init__ T) = newlines T /\
  PieceTable.original (PieceTable.__init__ T) = T.
Proof.
  unfold PieceTable.__init__. destruct (initialize_line_indexes T) as [_ ->].
  split; [apply (inv_count _ _ _ (make_line_indexes_inv T))|].
  unfold PieceTable._initialize.
  by destruct (PieceTable.make_line_indexes T).
Qed.

Lemma add_line_returned n s self :
  snd (PieceTable.add_line n s self) = Return tt ->
  PieceTable.lines (fst (PieceTable.add_line n s self))
  = PieceTable.lines self + 1.
Proof.
  rewrite add_line_eq. case_bool_decide; [done|].
  by destruct (PieceTable.line_indexes self !! n).
Qed.

(** X15. Because the line index is never brought up to date, [add_line]
    stops working after two insertions: on a reachable piece table whose
    line count exceeds by two or more the number of line terminators of the
    original text, every call of [add_line] raises; so three calls in a row
    on a freshly loaded text never all return. *)
Theorem add_line_fails_after_two_insertions :
  (forall self n s,
      FileEditor.reachable self ->
      newlines (PieceTable.original self) + 2 <= PieceTable.lines self ->
      raised (snd (PieceTable.add_line n s self))) /\
  (forall T n1 s1 n2 s2 n3 s3,
      raised (snd ((do _ <- PieceTable.add_line n1 s1 ;
                    do _ <- PieceTable.add_line n2 s2 ;
                    PieceTable.add_line n3 s3) (PieceTable.__init__ T)))).
Proof.
  split; [intros; by apply add_line_stale_raises|].
  intros T n1 s1 n2 s2 n3 s3. unfold bind.
  pose proof (FileEditor.reachable_init T) as H0.
  pose proof (reachable_add_line n1 s1 _ H0) as H1.
  pose proof (add_line_returned n1 s1 (PieceTable.__init__ T)) as L1.
  pose proof (add_line_original n1 s1 (PieceTable.__init__ T)) as O1.
  destruct (PieceTable.add_line n1 s1 (PieceTable.__init__ T))
    as [st1 [[]|e1]]; [|done]. simpl in *.
  pose proof (reachable_add_line n2 s2 _ H1) as H2.
  pose proof (add_line_returned n2 s2 st1) as L2.
  pose proof (add_line_original n2 s2 st1) as O2.
  destruct (PieceTable.add_line n2 s2 st1) as [st2 [[]|e2]]; [|done].
  simpl in *. apply add_line_stale_raises; [done|].
  rewrite O2, O1, L2, L1 by done.
  destruct (initialize_lines T) as [-> ->]. lia.
Qed.

Lemma add_line_fails_after_two_insertions_witness :
  FileEditor.reachable
    (fst (PieceTable.add_line 0 (lit "y") after_add_line)) /\
  newlines (PieceTable.original
              (fst (PieceTable.add_line 0 (lit "y") after_add_line))) + 2
  <= PieceTable.lines (fst (PieceTable.add_line 0 (lit "y") after_add_line)) /\
  raised (snd (PieceTable.add_line 1 (lit "z")
                 (fst (PieceTable.add_line 0 (lit "y") after_add_line)))).
Proof.
  assert (FileEditor.reachable
            (fst (PieceTable.add_line 0 (lit "y") after_add_line))) as H.
  { apply reachable_add_line.
    apply FileEditor.reachable_call, FileEditor.reachable_init. }
  assert (newlines (PieceTable.original
                      (fst (PieceTable.add_line 0 (lit "y") after_add_line)))
          + 2
          <= PieceTable.lines
               (fst (PieceTable.add_line 0 (lit "y") after_add_line))) as Hl
    by (vm_compute; discriminate).
  split; [exact H|]. split; [exact Hl|].
  exact (proj1 add_line_fails_after_two_insertions _ 1 (lit "z") H Hl).
Defined.

(** ** The two implementations compared *)

Lemma newlines_cons c s :
  newlines (c :: s) = (if bool_decide (c = newline) then 1 else 0) + newlines s.
Proof.
  unfold newlines. rewrite filter_cons.
  case_bool_decide; destruct (decide (c = newline)); try done;
    unfold len; simpl; lia.
Qed.

Lemma readlines_from_split cur s rest :
  readlines_from cur (s ++ newline :: rest)
  = readlines_from cur (s ++ [newline]) ++ readlines_from [] rest.
Proof.
  revert cur. induction s as [|c s IH]; intros cur; simpl; [done|].
  case_bool_decide; simpl; by rewrite IH.
Qed.

Lemma length_readlines_from_terminated cur s :
  len (readlines_from cur (s ++ [newline])) = newlines s + 1.
Proof.
  revert cur. induction s as [|c s IH]; intros cur; [done|].
  rewrite newlines_cons. simpl. case_bool_decide.
  - unfold len in *. simpl length. specialize (IH []). lia.
  - rewrite IH. lia.
Qed.

(** The lines up to the [n]-th terminator and the lines after it. *)
Lemma readlines_at_terminator T n i :
  kth_terminator T n i ->
  concat (take (Z.to_nat n) (readlines T)) = take (S (Z.to_nat i)) T /\
  concat (drop (Z.to_nat n) (readlines T)) = drop (S (Z.to_nat i)) T /\
  n <= len (readlines T).
Proof.
  intros (Hi & Hc & Hn).
  pose proof (take_drop_middle T (Z.to_nat i) newline Hc) as HT.
  set (pre := take (Z.to_nat i) T) in *.
  set (rest := drop (S (Z.to_nat i)) T) in *.
  assert (take (S (Z.to_nat i)) T = pre ++ [newline]) as Htake.
  { rewrite <- HT at 1. rewrite cons_middle, app_assoc.
    apply take_app_length'. rewrite length_app. subst pre.
    rewrite length_take. unfold len in Hi. simpl. lia. }
  assert (readlines T
          = readlines_from [] (pre ++ [newline]) ++ readlines_from [] rest)
    as Hsplit.
  { unfold readlines. rewrite <- HT at 1. apply readlines_from_split. }
  pose proof (length_readlines_from_terminated [] pre) as Hlen.
  rewrite Hn in Hlen. unfold len in Hlen.
  rewrite Htake, Hsplit. split; [|split].
  - rewrite take_app_length' by lia.
    exact (concat_readlines_from [] (pre ++ [newline])).
  - rewrite drop_app_length' by lia.
    exact (concat_readlines_from [] rest).
  - rewrite len_app. pose proof (len_nonneg (readlines_from [] rest)).
    unfold len in *. lia.
Qed.

(** X16. On a freshly loaded text, a first [add_line(n, text)] with [n]
    from 1 to the number of line terminators gives the same text in a
    [PieceTable] as in an [ArrayOfStrings] that holds the lines of the
    text. *)
Theorem first_add_line_agrees T n text :
  1 <= n <= PieceTable.lines (PieceTable.__init__ T) ->
  PieceTable.__str__ (fst (PieceTable.add_line n text (PieceTable.__init__ T)))
  = Return
      (ArrayOfStrings.__str__
         (fst (ArrayOfStrings.add_line n text
                 (ArrayOfStrings.mk (readlines T))))).
Proof.
  intros Hn. unfold PieceTable.__init__ in *.
  destruct (initialize_line_indexes T) as [Hli Hlines].
  pose proof (make_line_indexes_inv T) as Hinv.
  rewrite <- Hli, <- Hlines in Hinv.
  destruct (inv_entry _ _ _ Hinv n Hn) as (i & Hi & Hk).
  rewrite (fresh_add_line_text T n text i); [|apply Hk|lia|done].
  destruct (readlines_at_terminator T n i Hk) as (Htake & Hdrop & Hlen).
  rewrite array_add_line_eq. simpl.
  rewrite index_overflows_in_range by lia. unfold ArrayOfStrings.__str__.
  simpl. rewrite insert_at_in_range by lia.
  rewrite concat_app. simpl. by rewrite Htake, Hdrop.
Qed.

Lemma first_add_line_agrees_witness :
  1 <= 2 <= PieceTable.lines (PieceTable.__init__ three_lines) /\
  PieceTable.__str__
    (fst (PieceTable.add_line 2 (lit "x") (PieceTable.__init__ three_lines)))
  = Return
      (ArrayOfStrings.__str__
         (fst (ArrayOfStrings.add_line 2 (lit "x")
                 (ArrayOfStrings.mk (readlines three_lines))))).
Proof.
  assert (1 <= 2 <= PieceTable.lines (PieceTable.__init__ three_lines)) as H
    by (vm_compute; split; discriminate).
  split; [exact H|].
  exact (first_add_line_agrees three_lines 2 (lit "x") H).
Defined.

Lemma endswith_newline_cons c s :
  s <> [] -> endswith_newline (c :: s) = endswith_newline s.
Proof.
  intros Hs. unfold endswith_newline. destruct s as [|d s]; [done|].
  by rewrite last_cons_cons.
Qed.

Lemma length_readlines_from cur s :
  len (readlines_from cur s)
  = newlines s
    + match s with
      | [] => match cur with [] => 0 | _ => 1 end
      | _ => if endswith_newline s then 0 else 1
      end.
Proof.
  revert cur. induction s as [|c s IH]; intros cur.
  - by destruct cur.
  - rewrite newlines_cons. simpl readlines_from. case_bool_decide as Hc.
    + subst c. unfold len in *. simpl length. specialize (IH []).
      destruct s as [|d s]; [done|].
      rewrite (endswith_newline_cons newline (d :: s)) by done. lia.
    + rewrite IH. destruct s as [|d s].
      * destruct (cur ++ [c]) eqn:E; [by destruct cur|].
        unfold endswith_newline. simpl.
        rewrite bool_decide_eq_false_2 by done. done.
      * rewrite (endswith_newline_cons c (d :: s)) by done. lia.
Qed.

(** X17. The two classes count the lines of a file differently: an
    [ArrayOfStrings] that has read the file holds one line more than the
    line count of a [PieceTable] that has read it when the text read is not
    empty and does not end with a terminator, and as many otherwise. *)
Theorem line_counts_compared (raw : str) (fs : files) file_name self table :
  len (ArrayOfStrings.data
         (fst (ArrayOfStrings.read_file (<[file_name := Text raw]> fs)
                 file_name self)))
  = PieceTable.lines
      (fst (PieceTable.read_file (<[file_name := Text raw]> fs)
              file_name table))
    + match universal_newlines raw with
      | [] => 0
      | _ => if endswith_newline (universal_newlines raw) then 0 else 1
      end.
Proof.
  rewrite array_read_file_eq, piece_table_read_file_eq, lookup_insert_eq.
  simpl. destruct (initialize_lines (universal_newlines raw)) as [Hl _].
  unfold PieceTable.__init__ in Hl. rewrite Hl.
  unfold readlines. rewrite length_readlines_from.
  by destruct (universal_newlines raw).
Qed.

(** X19. Reading a file into a [PieceTable] and serializing it gives the
    text of the file with its line ends translated: the text itself when
    it holds no carriage return. No carriage return is left in the
    document, and nothing of the earlier state remains. *)
Theorem piece_table_read_serialize (raw : str) (fs : files) file_name self :
  PieceTable.read_file (<[file_name := Text raw]> fs) file_name self
  = (PieceTable.__init__ (universal_newlines raw), Return tt) /\
  PieceTable.__str__
    (fst (PieceTable.read_file (<[file_name := Text raw]> fs) file_name self))
  = Return (universal_newlines raw) /\
  (carriage_return ∉ universal_newlines raw) /\
  ((carriage_return ∉ raw) ->
   PieceTable.__str__
     (fst (PieceTable.read_file (<[file_name := Text raw]> fs)
             file_name self))
   = Return raw).
Proof.
  rewrite piece_table_read_file_eq, lookup_insert_eq. simpl.
  rewrite str_initialize.
  repeat split; [apply universal_newlines_no_cr|].
  intros Hcr. by rewrite universal_newlines_id.
Qed.

Lemma piece_table_read_serialize_witness :
  (carriage_return ∉ text_ab) /\
  PieceTable.__str__
    (fst (PieceTable.read_file (<["f" := Text text_ab]> ∅) "f"
            (PieceTable.__init__ [])))
  = Return text_ab.
Proof.
  assert (carriage_return ∉ text_ab) as H.
  { intros Hin. apply list_elem_of_In in Hin. vm_compute in Hin.
    repeat (destruct Hin as [Hin|Hin]; [discriminate|]). exact Hin. }
  split; [exact H|].
  exact (proj2 (proj2 (proj2
           (piece_table_read_serialize text_ab ∅ "f" (PieceTable.__init__ []))))
           H).
Defined.
